(** * python_api_connect: cache, WebSocket notifier and backup coordinator

    A shallow embedding of three modules of the dashboard backend,

      - [app/utils/cache.py]              (module [Cache]),
      - [app/utils/websocket_manager.py]  (module [WebsocketManager]),
      - [app/utils/db_persistence.py]     (module [DbPersistence]),

    and of the endpoints that call them,

      - [app/routers/api.py]              (module [Api]),
      - [app/main.py]                     (module [Main]),

    over SQLite as [app/models/database.py] presents it (module
    [Database]); with the properties their specification states about
    them, and further properties of the code.

    Conventions of the embedding.

    - A Python method is a computation in the monad [M W A]: it takes the
      world [W] (the object's fields together with the part of the
      environment the method talks to), and returns a [result] and the new
      world.  A [result] is a returned value or a raised exception.
    - [exn] stands for the instances of Python's [Exception] class, which
      is what [except Exception] catches.
    - A [datetime] is the number of microseconds since a fixed origin (its
      resolution), a [timedelta] a number of microseconds; both are
      unbounded integers (the year-9999 limit of [datetime] is left out).
      [time.time()] is read on the same microsecond grid.
    - A clock is an oracle: the sequence of values its successive readings
      return.  Time that passes between two statements shows as a
      difference between two consecutive readings.  No reading is assumed
      to be later than the one before: the wall clock can be set back.
    - Concurrency.  Every method of the cache holds the cache's lock from
      its first statement to its last, so a method of the cache is one
      step.  The coroutines of the manager give way to other tasks at
      their [await]s only: what the other tasks do to the manager there
      (connect or disconnect a session) is part of the manager's world.
      The coordinator has no lock; its methods are modelled as run by one
      thread at a time (the timer thread only calls them).  An endpoint
      is modelled as run with no other request interleaved: while it
      awaits a send, other tasks connect or disconnect sessions only. *)

From stdpp Require Import gmap strings list.
From Stdlib Require Import ZArith Lia.

#[local] Open Scope Z_scope.
#[local] Set Warnings "-clear-no-such-hyp".

(** ** Exceptions, results and the state monad *)

Inductive exn : Type :=
  | Exception (cls : string) (msg : string).

Inductive result (A : Type) : Type :=
  | Ok (a : A)
  | Raise (e : exn).

Arguments Ok {A} a.
Arguments Raise {A} e.

Definition M (W A : Type) : Type := W → result A * W.

Definition ret {W A} (a : A) : M W A := λ w, (Ok a, w).

Definition bind {W A B} (c : M W A) (k : A → M W B) : M W B :=
  λ w, match c w with
       | (Ok a, w') => k a w'
       | (Raise e, w') => (Raise e, w')
       end.

(** [try: c  except Exception as e: h e] *)
Definition try_except {W A} (c : M W A) (h : exn → M W A) : M W A :=
  λ w, match c w with
       | (Ok a, w') => (Ok a, w')
       | (Raise e, w') => h e w'
       end.

Definition gets {W A} (f : W → A) : M W A := λ w, (Ok (f w), w).

Definition modify {W} (f : W → W) : M W unit := λ w, (Ok tt, f w).

Declare Scope py_scope.
Delimit Scope py_scope with py.
Notation "x <- c ; k" := (bind c (λ x, k))
  (at level 200, c at level 100, k at level 200, right associativity,
   only parsing) : py_scope.
Notation "c ;; k" := (bind c (λ _, k))
  (at level 100, k at level 200, right associativity, only parsing) : py_scope.

(** ** Clocks *)

Record Clock : Type := mkClock {
  readings : nat → Z;   (* the value the n-th reading returns *)
  taken : nat           (* how many readings were taken so far *)
}.

(** The value the next reading returns. *)
Definition clock_now (c : Clock) : Z := readings c (taken c).

Definition clock_tick (c : Clock) : Clock :=
  {| readings := readings c; taken := S (taken c) |}.

(** No time passes over the next [n] readings. *)
Definition no_time_passes (n : nat) (c : Clock) : Prop :=
  ∀ i, (i < n)%nat → readings c (taken c + i) = clock_now c.

(** A clock that shows [t] forever: no time passes. *)
Definition frozen_clock (t : Z) : Clock :=
  {| readings := λ _, t; taken := 0 |}.

(** A clock whose successive readings are [ts], and the last of them (or
    [0]) forever after. *)
Definition clock_of_list (ts : list Z) : Clock :=
  {| readings := λ n, nth n ts (default 0 (last ts)); taken := 0 |}.

(** [timedelta(seconds=s)] and [timedelta(hours=h)] for integer arguments. *)
Definition timedelta_seconds (s : Z) : Z := s * 1000000.
Definition timedelta_hours (h : Z) : Z := h * 3600 * 1000000.

(** * app/utils/cache.py *)

Module Cache.
Section MemoryCache.
(** The cached values: [data: Any]. *)
Context {Any : Type}.

Record CacheEntry : Type := mkCacheEntry {
  data : Any;
  timestamp : Z;
  expires_at : Z
}.

(** [self._cache] of the one [MemoryCache] object, and the clock that
    [datetime.now()] reads. *)
Record World : Type := mkWorld {
  _cache : gmap string CacheEntry;
  wall : Clock
}.

Definition datetime_now : M World Z :=
  λ w, (Ok (clock_now (wall w)),
        {| _cache := _cache w; wall := clock_tick (wall w) |}).

Definition set_cache (f : gmap string CacheEntry → gmap string CacheEntry)
  : M World unit :=
  modify (λ w, {| _cache := f (_cache w); wall := wall w |}).

(** [CacheEntry.is_expired] *)
Definition is_expired (entry : CacheEntry) : M World bool :=
  (now <- datetime_now;
   ret (expires_at entry <? now))%py.

(** [MemoryCache.__init__] *)
Definition init (c : Clock) : World := {| _cache := ∅; wall := c |}.

(** [MemoryCache.get]: [None] is Python's [None], [Some d] the returned
    [entry.data]. *)
Definition get (key : string) : M World (option Any) :=
  (cache <- gets _cache;
   match cache !! key with
   | None => ret None
   | Some entry =>
       expired <- is_expired entry;
       if expired : bool
       then set_cache (delete key);; ret None
       else ret (Some (data entry))
   end)%py.

(** [MemoryCache.set] *)
Definition set (key : string) (value : Any) (ttl_seconds : Z) : M World unit :=
  (now1 <- datetime_now;
   let expires_at := now1 + timedelta_seconds ttl_seconds in
   now2 <- datetime_now;
   set_cache (<[key := {| data := value;
                          timestamp := now2;
                          expires_at := expires_at |}]>))%py.

(** [MemoryCache.invalidate] *)
Definition invalidate (key : string) : M World unit :=
  (cache <- gets _cache;
   if decide (is_Some (cache !! key))
   then set_cache (delete key)
   else ret tt)%py.

(** [MemoryCache.clear] *)
Definition clear : M World unit := set_cache (λ _, ∅).

(** The calls a client can make, to speak about every state the cache
    can reach. *)
Inductive call : Type :=
  | CallGet (key : string)
  | CallSet (key : string) (value : Any) (ttl_seconds : Z)
  | CallInvalidate (key : string)
  | CallClear.

Definition perform (c : call) (w : World) : World :=
  match c with
  | CallGet key => snd (get key w)
  | CallSet key value ttl_seconds => snd (set key value ttl_seconds w)
  | CallInvalidate key => snd (invalidate key w)
  | CallClear => snd (clear w)
  end.






Definition perform_all (cs : list call) (w : World) : World :=
  foldl (λ w c, perform c w) w cs.

(** The dictionary [get_stats] returns. *)
Record Stats : Type := mkStats {
  total_entries : Z;
  expired_entries : Z;
  active_entries : Z
}.

(** [sum(1 for entry in values if entry.is_expired())]: every entry is
    compared with a reading of its own. *)
Fixpoint count_expired (values : list CacheEntry) : M World Z :=
  match values with
  | [] => ret 0
  | entry :: rest =>
      (expired <- is_expired entry;
       n <- count_expired rest;
       ret ((if expired : bool then 1 else 0) + n))%py
  end.

(** [MemoryCache.get_stats], on the values of the dictionary in the order
    the dictionary yields them. *)
Definition get_stats_over (values : list CacheEntry) : M World Stats :=
  (let total_entries := Z.of_nat (length values) in
   expired_entries <- count_expired values;
   ret {| total_entries := total_entries;
          expired_entries := expired_entries;
          active_entries := total_entries - expired_entries |})%py.

(** [MemoryCache.get_stats].  A Python dictionary yields its values in
    the order the keys were first inserted, which the map does not keep:
    the values are taken in the order of the map. *)
Definition get_stats : M World Stats :=
  (cache <- gets _cache;
   get_stats_over (snd <$> map_to_list cache))%py.

(** The entries of [values] that have expired at time [now]. *)
Definition expired_at (now : Z) (values : list CacheEntry) : list CacheEntry :=
  filter (λ entry, expires_at entry < now) values.

(** The world after [n] more readings of the clock. *)
Definition after_readings (n : nat) (w : World) : World :=
  {| _cache := _cache w;
     wall := {| readings := readings (wall w);
                taken := (taken (wall w) + n)%nat |} |}.

End MemoryCache.
Arguments CacheEntry : clear implicits.
Arguments World : clear implicits.
Arguments call : clear implicits.
End Cache.

(** * app/utils/websocket_manager.py *)

Module WebsocketManager.

(** A [WebSocket] object, known by its identity. *)
Definition WebSocket : Type := nat.

(** The message dictionaries ([Dict[str, Any]]) the manager is given. *)
#[local] Unset Elimination Schemes.
Inductive JValue : Type :=
  | JStr (s : string)
  | JNum (z : Z)
  | JDict (d : list (string * JValue)).
#[local] Set Elimination Schemes.
Definition Message : Type := list (string * JValue).

(** The fields of the [ConnectionManager] object that [broadcast] reads
    and writes.  (The notification queue and its processing task only
    feed [notify_data_change]; the [print] and [logger] lines change
    nothing the manager or a session can see.  They are left out.) *)
Record ConnectionManager : Type := mkManager {
  active_connections : gset WebSocket;
  last_notification_time : Z;
  min_notification_interval : Z
}.

(** One call of [send_text], as the transport saw it. *)
Record SendEvent : Type := mkSend {
  receiver : WebSocket;
  text : string;
  outcome : result unit
}.

(** What another task does to the manager while [broadcast] is suspended
    in an [await]: the WebSocket endpoint connects or disconnects a
    session. *)
Inductive other_task : Type :=
  | Connects (websocket : WebSocket)
  | Disconnects (websocket : WebSocket).

(** The manager and its environment: [time.time()], the transport under
    the sessions, the asyncio scheduler, and the record of every
    [send_text] call made so far (oldest first).  The [n]-th call of
    [send_text] returns or raises what [transport n] says, and
    [scheduler n] runs while it is awaited. *)
Record World : Type := mkWorld {
  manager : ConnectionManager;
  timer : Clock;
  accepts : WebSocket → result unit;
  transport : nat → WebSocket → string → result unit;
  scheduler : nat → list other_task;
  wire : list SendEvent
}.

Section ConnectionManager.
(** [json.dumps], on the dictionaries it can serialise. *)
Context (json_dumps : Message → string).

Definition set_manager (f : ConnectionManager → ConnectionManager)
  : M World unit :=
  modify (λ w, {| manager := f (manager w); timer := timer w;
                  accepts := accepts w; transport := transport w;
                  scheduler := scheduler w; wire := wire w |}).

Definition set_active (f : gset WebSocket → gset WebSocket)
    (m : ConnectionManager) : ConnectionManager :=
  {| active_connections := f (active_connections m);
     last_notification_time := last_notification_time m;
     min_notification_interval := min_notification_interval m |}.

Definition set_last_notification_time (t : Z) (m : ConnectionManager)
  : ConnectionManager :=
  {| active_connections := active_connections m;
     last_notification_time := t;
     min_notification_interval := min_notification_interval m |}.

(** [ConnectionManager.__init__]: one second between notifications. *)
Definition init : ConnectionManager :=
  {| active_connections := ∅;
     last_notification_time := 0;
     min_notification_interval := timedelta_seconds 1 |}.

Definition time_time : M World Z :=
  λ w, (Ok (clock_now (timer w)),
        {| manager := manager w; timer := clock_tick (timer w);
           accepts := accepts w; transport := transport w;
           scheduler := scheduler w; wire := wire w |}).

Definition run_other (t : other_task) (m : ConnectionManager)
  : ConnectionManager :=
  match t with
  | Connects websocket => set_active (λ s, {[websocket]} ∪ s) m
  | Disconnects websocket => set_active (λ s, s ∖ {[websocket]}) m
  end.

Definition run_others (ts : list other_task) (m : ConnectionManager)
  : ConnectionManager :=
  foldl (λ m t, run_other t m) m ts.

(** [await connection.send_text(message_str)] *)
Definition send_text (connection : WebSocket) (message_str : string)
  : M World unit :=
  λ w, let n := length (wire w) in
       let r := transport w n connection message_str in
       (r, {| manager := run_others (scheduler w n) (manager w);
              timer := timer w; accepts := accepts w;
              transport := transport w; scheduler := scheduler w;
              wire := wire w ++ [ {| receiver := connection;
                                     text := message_str;
                                     outcome := r |} ] |}).

(** [await websocket.accept()] *)
Definition accept (websocket : WebSocket) : M World unit :=
  λ w, (accepts w websocket, w).

(** [ConnectionManager.connect], up to the start of the queue task. *)
Definition connect (websocket : WebSocket) : M World unit :=
  (accept websocket;;
   set_manager (set_active (λ s, {[websocket]} ∪ s)))%py.

(** [ConnectionManager.disconnect] *)
Definition disconnect (websocket : WebSocket) : M World unit :=
  set_manager (set_active (λ s, s ∖ {[websocket]})).

(** The loop of [broadcast] over the copy of the active set. *)
Fixpoint send_to_all (message_str : string) (copy : list WebSocket)
    (disconnected : gset WebSocket) : M World (gset WebSocket) :=
  match copy with
  | [] => ret disconnected
  | connection :: rest =>
      (disconnected' <-
         try_except
           (send_text connection message_str;; ret disconnected)
           (λ e, ret ({[connection]} ∪ disconnected));
       send_to_all message_str rest disconnected')%py
  end.

(** [ConnectionManager.broadcast] *)
Definition broadcast (message : Message) : M World unit :=
  (current_time <- time_time;
   m <- gets manager;
   if current_time - last_notification_time m <? min_notification_interval m
   then ret tt
   else if decide (active_connections m = ∅)
   then ret tt
   else
     set_manager (set_last_notification_time current_time);;
     let message_str := json_dumps message in
     copy <- gets (λ w, elements (active_connections (manager w)));
     disconnected <- send_to_all message_str copy ∅;
     set_manager (set_active (λ s, s ∖ disconnected)))%py.

(** The dictionary [notify_data_change] builds; [details or {}] is the
    empty dictionary when [details] is [None]. *)
Definition data_change_message (change_type : string) (timestamp : Z)
    (details : option Message) : Message :=
  [ ("type", JStr "data_change");
    ("change_type", JStr change_type);
    ("timestamp", JNum timestamp);
    ("details", JDict (default [] details)) ]%string.

(** [ConnectionManager.notify_data_change] *)
Definition notify_data_change (change_type : string)
    (details : option Message) : M World unit :=
  (timestamp <- time_time;
   let message := data_change_message change_type timestamp details in
   broadcast message)%py.

(** The messages a session received: the texts of the [send_text] calls
    on it that returned. *)
Definition returned (ev : SendEvent) : bool :=
  match outcome ev with Ok _ => true | Raise _ => false end.

Definition delivered_to (websocket : WebSocket) (w : World) : list string :=
  text <$> filter (λ ev, receiver ev = websocket ∧ returned ev = true) (wire w).

(** The calls made on the manager, to speak about what follows a
    broadcast. *)
Inductive call : Type :=
  | CallConnect (websocket : WebSocket)
  | CallDisconnect (websocket : WebSocket)
  | CallBroadcast (message : Message)
  | CallNotify (change_type : string) (details : option Message).

Definition perform (c : call) (w : World) : World :=
  match c with
  | CallConnect websocket => snd (connect websocket w)
  | CallDisconnect websocket => snd (disconnect websocket w)
  | CallBroadcast message => snd (broadcast message w)
  | CallNotify change_type details => snd (notify_data_change change_type details w)
  end.

Definition perform_all (cs : list call) (w : World) : World :=
  foldl (λ w c, perform c w) w cs.

(** The test [broadcast] makes on the time it has just read. *)
Definition rate_limited (w : World) : Prop :=
  clock_now (timer w) - last_notification_time (manager w)
    < min_notification_interval (manager w).

(** The world after one reading of [time.time()]. *)
Definition after_reading (w : World) : World := snd (time_time w).

(** The sessions on which one of the calls [evs] raised. *)
Definition failed (evs : list SendEvent) : gset WebSocket :=
  list_to_set (receiver <$> filter (λ ev, returned ev = false) evs).

(** What the other tasks do during the [k] calls of [send_text] that
    follow the first [n]. *)
Definition others_during (w : World) (n k : nat) : list other_task :=
  concat (scheduler w <$> seq n k).

(** No other task connects [c] again. *)
Definition never_reconnected (c : WebSocket) (w : World) : Prop :=
  ∀ n, Connects c ∉ scheduler w n.

(** [ConnectionManager.send_personal_message] *)
Definition send_personal_message (message : string) (websocket : WebSocket)
  : M World unit :=
  try_except (send_text websocket message)
             (λ e, disconnect websocket).

(** The manager together with its [notification_queue], oldest
    notification first. *)
Record Queued : Type := mkQueued {
  notification_queue : list (string * Message);
  base : World
}.

(** A coroutine of the manager, run on the manager with its queue. *)
Definition on_base {A} (c : M World A) : M Queued A :=
  λ q, (fst (c (base q)),
        {| notification_queue := notification_queue q;
           base := snd (c (base q)) |}).

(** [ConnectionManager.queue_notification]: [details or {}] is queued. *)
Definition queue_notification (change_type : string)
    (details : option Message) : M Queued unit :=
  try_except
    (modify (λ q, {| notification_queue :=
                       notification_queue q ++ [(change_type, default [] details)];
                     base := base q |}))
    (λ e, ret tt).

(** [while not self.notification_queue.empty(): ... get_nowait()] *)
Definition drain : M Queued (list (string * Message)) :=
  λ q, (Ok (notification_queue q),
        {| notification_queue := []; base := base q |}).

(** [for change_type, details in notifications:
       await self.notify_data_change(change_type, details)] *)
Fixpoint notify_each (notifications : list (string * Message)) : M World unit :=
  match notifications with
  | [] => ret tt
  | (change_type, details) :: rest =>
      (notify_data_change change_type (Some details);;
       notify_each rest)%py
  end.

(** One turn of the loop of [_process_notifications]; the two
    [asyncio.sleep] show in the clock only. *)
Definition process_pass : M Queued unit :=
  try_except
    (notifications <- drain;
     on_base (notify_each notifications))%py
    (λ e, ret tt).

(** [ConnectionManager._process_notifications], for a number of turns of
    its [while True]. *)
Fixpoint _process_notifications (turns : nat) : M Queued unit :=
  match turns with
  | O => ret tt
  | S turns' => (process_pass;; _process_notifications turns')%py
  end.

(** The world after [n] readings of [time.time()]. *)
Definition after_readings (n : nat) (w : World) : World :=
  {| manager := manager w;
     timer := {| readings := readings (timer w);
                 taken := (taken (timer w) + n)%nat |};
     accepts := accepts w; transport := transport w;
     scheduler := scheduler w; wire := wire w |}.

End ConnectionManager.
End WebsocketManager.

(** * app/utils/db_persistence.py *)

Module DbPersistence.

(** A [pathlib.Path]: its anchor and the names below it. *)
Record Path : Type := mkPath {
  anchor : string;
  parts : list string
}.

(** [Path.parent]: the path without its last name; a path with no name
    is its own parent. *)
Definition parent (p : Path) : Path :=
  {| anchor := anchor p; parts := removelast (parts p) |}.

(** The [metadata] dictionary of a backup; a time stands for its
    [isoformat()] string. *)
Record Metadata : Type := mkMetadata {
  backup_time : Z;
  file_size : Z;
  description : string;
  last_data_change : option Z
}.

(** The calls that leave the process: the file system and the pins
    board. *)
Inductive IOCall : Type :=
  | PathExists (p : Path)
  | PathStat (p : Path)
  | PinUpload (p : Path) (name : string) (metadata : Metadata)
      (description : string)
  | Mkdir (p : Path) (parents exist_ok : bool)
  | PinDownload (name : string)
  | Copy2 (src dst : Path).

(** The environment answers every such call, knowing the calls made
    before it: it can be any file system and any board, failing at any
    point. *)
Record Env : Type := mkEnv {
  path_exists : list IOCall → Path → bool;
  path_stat_size : list IOCall → Path → result Z;
  pin_upload : list IOCall → Path → string → Metadata → string → result unit;
  path_mkdir : list IOCall → Path → bool → bool → result unit;
  pin_download : list IOCall → string → result (list Path);
  shutil_copy2 : list IOCall → Path → Path → result unit
}.

Inductive Level : Type := DEBUG | INFO | WARNING | ERROR.

(** A log record: its level and the fixed part of its message. *)
Record LogRecord : Type := mkLog { level : Level; message : string }.

(** The board handle [pins.board_connect] returned. *)
Record Board : Type := mkBoard { server_url : string }.

(** The fields of the [PersistentSQLiteDB] object ([board = None] when
    no board could be connected). *)
Record PersistentSQLiteDB : Type := mkDB {
  db_path : Path;
  pin_name : string;
  backup_interval_hours : Z;
  last_backup_time : option Z;
  last_data_change_time : option Z;
  board : option Board
}.

(** The object, the clock [datetime.now()] reads, the environment, the
    calls made to it so far (oldest first) and the log. *)
Record World : Type := mkWorld {
  self : PersistentSQLiteDB;
  wall : Clock;
  env : Env;
  io : list IOCall;
  log : list LogRecord
}.

Definition datetime_now : M World Z :=
  λ w, (Ok (clock_now (wall w)),
        {| self := self w; wall := clock_tick (wall w); env := env w;
           io := io w; log := log w |}).

Definition set_self (f : PersistentSQLiteDB → PersistentSQLiteDB)
  : M World unit :=
  modify (λ w, {| self := f (self w); wall := wall w; env := env w;
                  io := io w; log := log w |}).

Definition logger (l : Level) (msg : string) : M World unit :=
  modify (λ w, {| self := self w; wall := wall w; env := env w; io := io w;
                  log := log w ++ [ {| level := l; message := msg |} ] |}).

(** A call to the environment: recorded, and answered from the calls
    before it. *)
Definition external {A} (c : IOCall) (answer : Env → list IOCall → result A)
  : M World A :=
  λ w, (answer (env w) (io w),
        {| self := self w; wall := wall w; env := env w;
           io := io w ++ [c]; log := log w |}).

(** [Path.exists] answers with a boolean. *)
Definition exists_ (p : Path) : M World bool :=
  external (PathExists p) (λ e h, Ok (path_exists e h p)).

Definition stat_st_size (p : Path) : M World Z :=
  external (PathStat p) (λ e h, path_stat_size e h p).

Definition board_pin_upload (p : Path) (name : string) (metadata : Metadata)
    (description : string) : M World unit :=
  external (PinUpload p name metadata description)
           (λ e h, pin_upload e h p name metadata description).

Definition mkdir (p : Path) (parents exist_ok : bool) : M World unit :=
  external (Mkdir p parents exist_ok) (λ e h, path_mkdir e h p parents exist_ok).

Definition board_pin_download (name : string) : M World (list Path) :=
  external (PinDownload name) (λ e h, pin_download e h name).

Definition copy2 (src dst : Path) : M World unit :=
  external (Copy2 src dst) (λ e h, shutil_copy2 e h src dst).

(** [PersistentSQLiteDB.__init__], after [_init_pins_board] has left
    [b] in [self.board]. *)
Definition init (path : Path) (name : string) (interval_hours : Z)
    (b : option Board) : PersistentSQLiteDB :=
  {| db_path := path; pin_name := name;
     backup_interval_hours := interval_hours;
     last_backup_time := None; last_data_change_time := None;
     board := b |}.

Definition set_last_backup_time (t : Z) (s : PersistentSQLiteDB)
  : PersistentSQLiteDB :=
  {| db_path := db_path s; pin_name := pin_name s;
     backup_interval_hours := backup_interval_hours s;
     last_backup_time := Some t;
     last_data_change_time := last_data_change_time s;
     board := board s |}.

Definition set_last_data_change_time (t : Z) (s : PersistentSQLiteDB)
  : PersistentSQLiteDB :=
  {| db_path := db_path s; pin_name := pin_name s;
     backup_interval_hours := backup_interval_hours s;
     last_backup_time := last_backup_time s;
     last_data_change_time := Some t;
     board := board s |}.

(** [PersistentSQLiteDB.mark_data_change] *)
Definition mark_data_change : M World unit :=
  (now <- datetime_now;
   set_self (set_last_data_change_time now);;
   logger DEBUG "Data change marked")%py.

(** [PersistentSQLiteDB.should_backup_now] *)
Definition should_backup_now : M World bool :=
  (s <- gets self;
   match last_data_change_time s with
   | None => ret false
   | Some last_change =>
       now <- datetime_now;
       match last_backup_time s with
       | None => ret true
       | Some last_backup =>
           let time_since_backup := now - last_backup in
           if (timedelta_hours (backup_interval_hours s) <=? time_since_backup)
              && (last_backup <? last_change)
           then ret true
           else ret false
       end
   end)%py.

(** [PersistentSQLiteDB.backup_database] *)
Definition backup_database (force : bool) : M World bool :=
  (skip <- (if force then ret false
            else should <- should_backup_now; ret (negb should));
   if skip : bool then
     logger DEBUG "Backup skipped - not enough time elapsed or no changes";;
     ret false
   else
   s <- gets self;
   match board s with
   | None =>
       logger WARNING "Pins board not available, skipping backup";;
       ret false
   | Some _ =>
       present <- exists_ (db_path s);
       if present : bool then
         try_except
           (now <- datetime_now;
            size <- stat_st_size (db_path s);
            let metadata :=
              {| backup_time := now;
                 file_size := size;
                 description := "SQLite database backup for Python FastAPI app";
                 last_data_change := last_data_change_time s |} in
            board_pin_upload (db_path s) (pin_name s) metadata "Database backup";;
            done <- datetime_now;
            set_self (set_last_backup_time done);;
            logger INFO "Database backed up to pin";;
            ret true)
           (λ e, logger ERROR "Error backing up database";;
                 ret false)
       else
         logger WARNING "Database file does not exist, skipping backup";;
         ret false
   end)%py.

(** [PersistentSQLiteDB.restore_database] *)
Definition restore_database : M World bool :=
  (s <- gets self;
   match board s with
   | None =>
       logger WARNING "Pins board not available, skipping restore";;
       ret false
   | Some _ =>
       try_except
         (mkdir (parent (db_path s)) true true;;
          downloaded_files <- board_pin_download (pin_name s);
          match downloaded_files with
          | [] =>
              logger WARNING "No files downloaded from pin";;
              ret false
          | downloaded_db_path :: _ =>
              copy2 downloaded_db_path (db_path s);;
              logger INFO "Database restored from pin";;
              logger INFO "Downloaded from cache";;
              ret true
          end)
         (λ e, logger INFO "Could not restore database from pin";;
               logger INFO "This is normal for first deployment or when no backup exists";;
               ret false)
   end)%py.

(** The spec's words (section 3): a backup is needed iff
    [lastDataChangeTime] is set and ([lastBackupTime] is unset, or
    [now - lastBackupTime >= backupIntervalHours] and
    [lastDataChangeTime > lastBackupTime]). *)
Definition backup_needed (s : PersistentSQLiteDB) (now : Z) : Prop :=
  ∃ changed, last_data_change_time s = Some changed ∧
    (last_backup_time s = None ∨
     ∃ backed_up, last_backup_time s = Some backed_up ∧
       now - backed_up >= timedelta_hours (backup_interval_hours s) ∧
       changed > backed_up).

(** The world after one reading of [datetime.now()]. *)
Definition after_now (w : World) : World := snd (datetime_now w).

(** The world in which [backup_database] goes on after its first test:
    a forced backup has not looked at the clock. *)
Definition after_first_test (force : bool) (w : World) : World :=
  if force then w else snd (should_backup_now w).

(** The metadata [backup_database] attaches, from the time it read and
    the size [stat] gave. *)
Definition backup_metadata (s : PersistentSQLiteDB) (now size : Z) : Metadata :=
  {| backup_time := now;
     file_size := size;
     description := "SQLite database backup for Python FastAPI app";
     last_data_change := last_data_change_time s |}.

(** [backup_database] gets past its first test. *)
Definition backup_due (force : bool) (w : World) : Prop :=
  force = true ∨ fst (should_backup_now w) = Ok true.


(** Every step of a restore goes through: there is a board, the parent
    directory can be made, the pin gives at least one file, and the first
    of them can be copied over the database. *)
Definition restore_succeeds (w : World) (downloaded : Path) : Prop :=
  let s := self w in
  let made := Mkdir (parent (db_path s)) true true in
  is_Some (board s) ∧
  path_mkdir (env w) (io w) (parent (db_path s)) true true = Ok tt ∧
  (∃ others, pin_download (env w) (io w ++ [made]) (pin_name s)
             = Ok (downloaded :: others)) ∧
  shutil_copy2 (env w) (io w ++ [made; PinDownload (pin_name s)])
    downloaded (db_path s) = Ok tt.

(** [PersistentSQLiteDB._check_and_backup_if_needed] *)
Definition _check_and_backup_if_needed : M World unit :=
  (should <- should_backup_now;
   if should : bool then
     logger INFO "Scheduled backup triggered due to data changes";;
     backup_database false;;
     ret tt
   else ret tt)%py.

(** The dictionary [get_status] returns; a time stands for its
    [isoformat()] string. *)
Record Status : Type := mkStatus {
  status_last_backup_time : option Z;
  status_last_data_change_time : option Z;
  status_backup_interval_hours : Z;
  pins_available : bool;
  database_exists : bool;
  database_size : Z;
  next_scheduled_backup : option Z;
  status_backup_needed : bool
}.

(** [PersistentSQLiteDB.get_status]: the entries of the dictionary are
    computed in the order they are written, [exists()] twice. *)
Definition get_status : M World Status :=
  (s <- gets self;
   present <- exists_ (db_path s);
   present_again <- exists_ (db_path s);
   size <- (if present_again : bool then stat_st_size (db_path s) else ret 0);
   let next :=
     match last_backup_time s with
     | None => None
     | Some last_backup =>
         Some (last_backup + timedelta_hours (backup_interval_hours s))
     end in
   needed <- should_backup_now;
   ret {| status_last_backup_time := last_backup_time s;
          status_last_data_change_time := last_data_change_time s;
          status_backup_interval_hours := backup_interval_hours s;
          pins_available := bool_decide (is_Some (board s));
          database_exists := present;
          database_size := size;
          next_scheduled_backup := next;
          status_backup_needed := needed |})%py.

(** The object with the flag that stops its timer thread. *)
Record Service : Type := mkService {
  coordinator : World;
  _shutdown_requested : bool
}.

(** A method of the object, run on the object with its flag. *)
Definition on_coordinator {A} (c : M World A) : M Service A :=
  λ v, (fst (c (coordinator v)),
        {| coordinator := snd (c (coordinator v));
           _shutdown_requested := _shutdown_requested v |}).

Definition set_shutdown_requested (b : bool) : M Service unit :=
  modify (λ v, {| coordinator := coordinator v; _shutdown_requested := b |}).

(** [PersistentSQLiteDB.shutdown], up to the wait for the timer thread. *)
Definition shutdown : M Service unit :=
  (on_coordinator (logger INFO "Shutting down database persistence manager...");;
   set_shutdown_requested true;;
   s <- gets (λ v, self (coordinator v));
   let unsaved :=
     match last_data_change_time s with
     | None => false
     | Some last_change =>
         match last_backup_time s with
         | None => true
         | Some last_backup => last_backup <? last_change
         end
     end in
   if unsaved : bool then
     on_coordinator (logger INFO "Performing final backup before shutdown...");;
     on_coordinator (backup_database true);;
     ret tt
   else ret tt)%py.


(** The spec's "unsaved changes": a change is recorded, and no backup
    was made or the change is newer than the last backup. *)
Definition unsaved_changes (s : PersistentSQLiteDB) : Prop :=
  ∃ changed, last_data_change_time s = Some changed ∧
    (last_backup_time s = None ∨
     ∃ backed_up, last_backup_time s = Some backed_up ∧ changed > backed_up).

(** What the constructor reads of its process: the environment
    variables, and [pins.board_connect]. *)
Record Process : Type := mkProcess {
  getenv : string → option string;
  board_connect : string → string → result Board
}.

(** [PersistentSQLiteDB._init_pins_board]: the board it leaves in
    [self.board], and what it logs. *)
Definition _init_pins_board (p : Process) : option Board * list LogRecord :=
  let server_url := default "https://connect.posit.it" (getenv p "CONNECT_SERVER") in
  let api_key := getenv p "CONNECT_API_KEY" in
  if decide (api_key = None ∨ api_key = Some ""%string) then
    (None, [ {| level := WARNING;
                message := "CONNECT_API_KEY not found, pins backup/restore disabled" |} ])
  else
    match board_connect p server_url (default "" api_key) with
    | Ok b =>
        (Some b, [ {| level := INFO;
                      message := "Successfully connected to Posit Connect pins board" |} ])
    | Raise e =>
        (None, [ {| level := WARNING; message := "Could not connect to pins board" |};
                 {| level := WARNING;
                    message := "Database backup/restore will not be available" |} ])
    end.

(** [PersistentSQLiteDB.__init__], up to the start of the timer thread:
    the object, and what was logged. *)
Definition __init__ (p : Process) (path : Path) (name : option string)
    (interval_hours : Z) : PersistentSQLiteDB * list LogRecord :=
  let pin :=
    match name with
    | None =>
        let username :=
          match getenv p "CONNECT_USERNAME" with
          | None => "default_user"
          | Some u => if decide (u = ""%string) then "default_user" else u
          end in
        (username ++ "/python-api-database")%string
    | Some given => given
    end in
  let (b, logged_by_board) := _init_pins_board p in
  (init path pin interval_hours b,
   logged_by_board
   ++ [ {| level := INFO;
           message := "Backup timer started - checking every 5 minutes" |};
        {| level := INFO;
           message := "Database persistence initialized with pin name" |} ]).

(** The calls made on the object during its life. *)
Inductive call : Type :=
  | CallMarkDataChange
  | CallShouldBackupNow
  | CallBackupDatabase (force : bool)
  | CallRestoreDatabase
  | CallCheckAndBackup
  | CallGetStatus.

Definition perform (c : call) (w : World) : World :=
  match c with
  | CallMarkDataChange => snd (mark_data_change w)
  | CallShouldBackupNow => snd (should_backup_now w)
  | CallBackupDatabase force => snd (backup_database force w)
  | CallRestoreDatabase => snd (restore_database w)
  | CallCheckAndBackup => snd (_check_and_backup_if_needed w)
  | CallGetStatus => snd (get_status w)
  end.

Definition perform_all (cs : list call) (w : World) : World :=
  foldl (λ w c, perform c w) w cs.

(** What the constructor sets and no method writes: the path, the pin
    name, the interval and the board. *)
Definition configuration (s : PersistentSQLiteDB)
  : Path * string * Z * option Board :=
  (db_path s, pin_name s, backup_interval_hours s, board s).

(** An upload of the database file under the pin name of the object. *)
Definition is_upload (s : PersistentSQLiteDB) (c : IOCall) : Prop :=
  ∃ metadata, c = PinUpload (db_path s) (pin_name s) metadata "Database backup".

(** A probe of the file system that changes nothing. *)
Definition is_probe (c : IOCall) : Prop :=
  match c with
  | PathExists _ | PathStat _ => True
  | _ => False
  end.

(** What every method respects, from the world [w] it is called in to
    the world [w'] it leaves: the configuration and the environment stay;
    a recorded change or backup is never forgotten; calls are only added;
    [last_backup_time] moves only with an upload among the added calls;
    and without a board it does not move, and the added calls are probes
    of the file system. *)
Definition evolves (w w' : World) : Prop :=
  configuration (self w') = configuration (self w) ∧
  env w' = env w ∧
  (is_Some (last_data_change_time (self w)) →
     is_Some (last_data_change_time (self w'))) ∧
  (is_Some (last_backup_time (self w)) →
     is_Some (last_backup_time (self w'))) ∧
  ∃ calls, io w' = io w ++ calls ∧
    (last_backup_time (self w') ≠ last_backup_time (self w) →
       ∃ upload, upload ∈ calls ∧ is_upload (self w) upload) ∧
    (board (self w) = None →
       last_backup_time (self w') = last_backup_time (self w) ∧
       Forall is_probe calls).

End DbPersistence.

(** * app/models/database.py, as the endpoints see it *)

Module Database.

(** A value SQLite stores, or is given for a [?] of a statement. *)
Inductive Value : Type :=
  | Null
  | Integer (n : Z)
  | Text (s : string).

(** [dict(row)]: the columns of a row by name. *)
Definition Row : Type := list (string * Value).

(** The dictionary [get_dashboard_data] returns. *)
Record DashboardData : Type := mkDashboardData {
  total_items : Z;
  recent_items : list Row
}.

(** The calls the endpoints make to the helpers of the module; each
    helper opens a connection, runs its statement and closes the
    connection. *)
Inductive Statement : Type :=
  | ExecuteQuery (query : string) (params : list Value)
  | ExecuteInsert (query : string) (params : list Value)
  | ExecuteUpdate (query : string) (params : list Value)
  | GetDashboardData.

(** SQLite answers every call, knowing the calls made before it: the
    helper returns what it computed from the cursor, or raises what
    [sqlite3] raised. *)
Record Sqlite : Type := mkSqlite {
  fetchall : list Statement → string → list Value → result (list Row);
  lastrowid : list Statement → string → list Value → result (option Z);
  rowcount : list Statement → string → list Value → result Z;
  dashboard_data : list Statement → result DashboardData
}.

End Database.

(** * app/routers/api.py *)

Module Api.
Import Database.



(** The three global objects the endpoints share, [cache], [manager] and
    [db_manager], with SQLite and the calls made to it so far (oldest
    first).  The cache holds the HTML fragments of the dashboard. *)
Record World : Type := mkWorld {
  cache : Cache.World string;
  manager : WebsocketManager.World;
  db_manager : DbPersistence.World;
  sqlite : Sqlite;
  statements : list Statement
}.

(** A method of one of the global objects, run in the application. *)
Definition on_cache {A} (c : M (Cache.World string) A) : M World A :=
  λ w, (fst (c (cache w)),
        {| cache := snd (c (cache w)); manager := manager w;
           db_manager := db_manager w; sqlite := sqlite w;
           statements := statements w |}).

Definition on_manager {A} (c : M WebsocketManager.World A) : M World A :=
  λ w, (fst (c (manager w)),
        {| cache := cache w; manager := snd (c (manager w));
           db_manager := db_manager w; sqlite := sqlite w;
           statements := statements w |}).

Definition on_db_manager {A} (c : M DbPersistence.World A) : M World A :=
  λ w, (fst (c (db_manager w)),
        {| cache := cache w; manager := manager w;
           db_manager := snd (c (db_manager w)); sqlite := sqlite w;
           statements := statements w |}).

(** A call to SQLite: recorded, and answered from the calls before it. *)
Definition statement {A} (s : Statement)
    (answer : Sqlite → list Statement → result A) : M World A :=
  λ w, (answer (sqlite w) (statements w),
        {| cache := cache w; manager := manager w;
           db_manager := db_manager w; sqlite := sqlite w;
           statements := statements w ++ [s] |}).

(** [execute_query], [execute_insert] and [execute_update] of
    [app/models/database.py]. *)
Definition execute_query (query : string) (params : list Value)
  : M World (list Row) :=
  statement (ExecuteQuery query params) (λ db h, fetchall db h query params).








Section Router.
(** [json.dumps], on the dictionaries it can serialise. *)
Context (json_dumps : WebsocketManager.Message → string).

(** The statements the three write endpoints have in common, run once
    SQLite has made the change: [cache.invalidate] of the two keys of the
    dashboard, the notification, [mark_data_change] and an unforced
    [backup_database]. *)
Definition after_write (change_type : string)
    (details : WebsocketManager.Message) : M World unit :=
  (on_cache (Cache.invalidate "dashboard_stats");;
   on_cache (Cache.invalidate "dashboard_items");;
   on_manager (WebsocketManager.notify_data_change json_dumps change_type
                 (Some details));;
   on_db_manager DbPersistence.mark_data_change;;
   on_db_manager (DbPersistence.backup_database false);;
   ret tt)%py.

(** [get_all_items] *)
Definition get_all_items : M World (list Row) :=
  execute_query "SELECT * FROM items ORDER BY created_at DESC" [].






End Router.
End Api.

(** * app/main.py *)

Module Main.
Import Database Api.

(** [get_dashboard_data] of [app/models/database.py]. *)
Definition get_dashboard_data : M World DashboardData :=
  statement GetDashboardData (λ db h, dashboard_data db h).

(** [str(e)] *)
Definition str (e : exn) : string :=
  match e with Exception _ msg => msg end.

(** What an admin endpoint answers: the status code, and the dictionary
    sent. *)
Inductive Content : Type :=
  | Outcome (success : bool) (message : string)
  | BackupStatus (success : bool) (status : DbPersistence.Status).

Record JSONResponse : Type := mkResponse {
  status_code : Z;
  content : Content
}.

Section Application.
(** [json.dumps]; and the HTML the two dashboard endpoints build: the
    fragment with the number of items, the list of the recent items
    (whose formatting returns or raises), and the two fragments shown for
    an error. *)
Context (json_dumps : WebsocketManager.Message → string).
Context (stats_html : Z → string) (stats_error_html : exn → string).
Context (items_html : list Row → result string) (items_error_html : exn → string).

(** [get_dashboard_stats] *)
Definition get_dashboard_stats : M World string :=
  (cached_data <- on_cache (Cache.get "dashboard_stats");
   match cached_data with
   | Some html => ret html
   | None =>
       try_except
         (dashboard_data <- get_dashboard_data;
          let html := stats_html (total_items dashboard_data) in
          on_cache (Cache.set "dashboard_stats" html 10);;
          ret html)
         (λ e, ret (stats_error_html e))
   end)%py.

(** [get_dashboard_items] *)
Definition get_dashboard_items : M World string :=
  (cached_data <- on_cache (Cache.get "dashboard_items");
   match cached_data with
   | Some html => ret html
   | None =>
       try_except
         (dashboard_data <- get_dashboard_data;
          html <- (λ w, (items_html (recent_items dashboard_data), w));
          on_cache (Cache.set "dashboard_items" html 10);;
          ret html)
         (λ e, ret (items_error_html e))
   end)%py.

(** [test_websocket]; the value is the [status] of the dictionary it
    returns. *)
Definition test_websocket : M World string :=
  (on_manager (WebsocketManager.notify_data_change json_dumps "test_notification"
                 (Some [("message", WebsocketManager.JStr "Manual test")]%string));;
   ret "notification sent"%string)%py.

(** [backup_database], the endpoint [/admin/backup-database] *)
Definition backup_database : M World JSONResponse :=
  try_except
    (success <- on_db_manager (DbPersistence.backup_database true);
     if success : bool
     then ret {| status_code := 200;
                 content := Outcome true "Database backup completed successfully" |}
     else ret {| status_code := 200;
                 content := Outcome false
                   "Database backup failed - check logs for details" |})%py
    (λ e, ret {| status_code := 500;
                 content := Outcome false ("Database backup error: " ++ str e) |}).


(** [restore_database], the endpoint [/admin/restore-database] *)
Definition restore_database : M World JSONResponse :=
  try_except
    (success <- on_db_manager DbPersistence.restore_database;
     if success : bool
     then ret {| status_code := 200;
                 content := Outcome true
                   "Database restored successfully from backup" |}
     else ret {| status_code := 200;
                 content := Outcome false
                   "Database restore failed - check logs for details" |})%py
    (λ e, ret {| status_code := 500;
                 content := Outcome false ("Database restore error: " ++ str e) |}).

End Application.
End Main.

(** * Worlds to run the modules in *)

(** ** A cache with the dashboard's keys *)

Definition dashboard_cache : Cache.World string :=
  snd (Cache.set "dashboard_stats" "5 items" 10 (Cache.init (frozen_clock 1000))).

(** A reading taken 11 seconds after the entry was stored. *)
Definition dashboard_cache_later : Cache.World string :=
  {| Cache._cache := Cache._cache dashboard_cache;
     Cache.wall := frozen_clock 12000000 |}.

(** ** A manager with dashboard sessions *)

(** A stand-in for [json.dumps]: the keys of the dictionary. *)
Definition show_keys (m : WebsocketManager.Message) : string :=
  String.concat "," (fst <$> m).

Definition healthy : nat → WebsocketManager.WebSocket → string → result unit :=
  λ _ _ _, Ok tt.

(** Every [send_text] on the session [bad] raises. *)
Definition broken (bad : WebsocketManager.WebSocket)
  : nat → WebsocketManager.WebSocket → string → result unit :=
  λ _ c _, if decide (c = bad)
           then Raise (Exception "Exception" "Connection failed")
           else Ok tt.

(** A fresh manager with [sessions] connected, no other task running, and
    a clock that will show [times]. *)
Definition dashboard (sessions : gset WebsocketManager.WebSocket)
    (transport : nat → WebsocketManager.WebSocket → string → result unit)
    (times : list Z) : WebsocketManager.World :=
  {| WebsocketManager.manager :=
       WebsocketManager.set_active (λ _, sessions) WebsocketManager.init;
     WebsocketManager.timer := clock_of_list times;
     WebsocketManager.accepts := λ _, Ok tt;
     WebsocketManager.transport := transport;
     WebsocketManager.scheduler := λ _, [];
     WebsocketManager.wire := [] |}.

Definition test_message : WebsocketManager.Message :=
  [("type", WebsocketManager.JStr "test");
   ("data", WebsocketManager.JStr "broadcast_test")]%string.

(** Two notifications 0.4 seconds apart, one healthy session. *)
Definition burst : WebsocketManager.World :=
  dashboard {[1%nat]} healthy
    [1700000000000000; 1700000000000100; 1700000000400000; 1700000000400100].

(** A broadcast half a second after the origin of a fresh manager. *)
Definition too_early : WebsocketManager.World :=
  dashboard {[1%nat]} healthy [500000].

(** Two sessions, the second one broken; the clock shows two times, two
    seconds apart. *)
Definition one_broken : WebsocketManager.World :=
  dashboard ({[1%nat]} ∪ {[2%nat]}) (broken 2%nat)
    [1700000000000000; 1700000002000000].

(** A manager nobody is connected to. *)
Definition nobody : WebsocketManager.World :=
  dashboard ∅ healthy [1700000000000000].

(** The only session of this manager is broken. *)
Definition all_broken : WebsocketManager.World :=
  dashboard {[1%nat]} (broken 1%nat) [1700000000000000].

(** A session whose handshake fails cannot be connected. *)
Definition refusing : WebsocketManager.World :=
  {| WebsocketManager.manager := WebsocketManager.init;
     WebsocketManager.timer := clock_of_list [1700000000000000];
     WebsocketManager.accepts :=
       λ _, Raise (Exception "RuntimeError" "handshake failed");
     WebsocketManager.transport := healthy;
     WebsocketManager.scheduler := λ _, [];
     WebsocketManager.wire := [] |}.

(** Three notifications queued, processed within a millisecond. *)
Definition queued_burst : WebsocketManager.Queued :=
  {| WebsocketManager.notification_queue :=
       [("item_created", [("item_id", WebsocketManager.JNum 1)]);
        ("item_updated", [("item_id", WebsocketManager.JNum 1)]);
        ("item_deleted", [("item_id", WebsocketManager.JNum 1)])]%string;
     WebsocketManager.base :=
       dashboard ({[1%nat]} ∪ {[2%nat]}) healthy
         [1700000000000000; 1700000000000100; 1700000000000200;
          1700000000000300; 1700000000000400; 1700000000000500] |}.

(** ** A coordinator on a deployment *)

Definition database_db : DbPersistence.Path :=
  {| DbPersistence.anchor := ""; DbPersistence.parts := ["data"; "database.db"]%string |}.

Definition cached_db : DbPersistence.Path :=
  {| DbPersistence.anchor := "/";
     DbPersistence.parts := ["cache"; "pins-py"; "database.db"]%string |}.

(** A file system that has the database file (or not) and obeys, and a
    board that answers uploads and downloads as given. *)
Definition deployment_env (present : bool) (upload : result unit)
    (download : result (list DbPersistence.Path)) : DbPersistence.Env :=
  {| DbPersistence.path_exists := λ _ _, present;
     DbPersistence.path_stat_size := λ _ _, Ok 4096;
     DbPersistence.pin_upload := λ _ _ _ _ _, upload;
     DbPersistence.path_mkdir := λ _ _ _ _, Ok tt;
     DbPersistence.pin_download := λ _ _, download;
     DbPersistence.shutil_copy2 := λ _ _ _, Ok tt |}.

Definition posit_connect : option DbPersistence.Board :=
  Some {| DbPersistence.server_url := "https://connect.posit.it" |}.

Definition deployment (b : option DbPersistence.Board) (e : DbPersistence.Env)
    (times : list Z) : DbPersistence.World :=
  {| DbPersistence.self :=
       DbPersistence.init database_db "default_user/python-api-database" 1 b;
     DbPersistence.wall := clock_of_list times;
     DbPersistence.env := e;
     DbPersistence.io := [];
     DbPersistence.log := [] |}.

Definition timeout_error : exn := Exception "ConnectionError" "timed out".

(** A healthy deployment, started at second 1000; and the same after a
    write has marked a data change. *)
Definition started : DbPersistence.World :=
  deployment posit_connect (deployment_env true (Ok tt) (Ok [cached_db]))
    [1000000000; 1000000200; 1000000300; 1000000400; 1000000500].

Definition written : DbPersistence.World := snd (DbPersistence.mark_data_change started).

(** Deployments in which something is missing or fails. *)
Definition no_board : DbPersistence.World :=
  deployment None (deployment_env true (Ok tt) (Ok [cached_db])) [1000000000].


Definition no_pin : DbPersistence.World :=
  deployment posit_connect
    (deployment_env true (Raise timeout_error) (Raise timeout_error))
    [1000000000].

(** The healthy deployment after its first backup and a second write;
    and the service about to be shut down in that state. *)
Definition rewritten : DbPersistence.World :=
  snd (DbPersistence.mark_data_change
         (snd (DbPersistence.backup_database false written))).

Definition stopping : DbPersistence.Service :=
  {| DbPersistence.coordinator := rewritten;
     DbPersistence._shutdown_requested := false |}.

(** ** The application *)

Definition first_item : Database.Row :=
  [("id", Database.Integer 1); ("name", Database.Text "first")]%string.

(** An SQLite that holds one item and obeys: a write touches one row,
    an insert gives the row the number 2. *)
Definition one_item : Database.Sqlite :=
  {| Database.fetchall := λ _ _ _, Ok [first_item];
     Database.lastrowid := λ _ _ _, Ok (Some 2);
     Database.rowcount := λ _ _ _, Ok 1;
     Database.dashboard_data := λ _,
       Ok {| Database.total_items := 1;
             Database.recent_items := [first_item] |} |}.

(** The application with nothing cached, on a clock that shows the
    given times. *)
Definition cold_start (db : Database.Sqlite) (times : list Z) : Api.World :=
  {| Api.cache := Cache.init (clock_of_list times);
     Api.manager := burst;
     Api.db_manager := started;
     Api.sqlite := db;
     Api.statements := [] |}.

(** Stand-ins for the HTML [get_dashboard_stats] builds. *)
Definition show_total (total : Z) : string :=
  if decide (total = 0) then "no items" else "some items".

Definition show_error (e : exn) : string := Main.str e.

(** * Proof steps shared by the modules *)

(** Case analysis on the integer comparison the goal branches on. *)
Ltac case_ltb :=
  match goal with
  | |- context [ ?a <? ?b ] => destruct (Z.ltb_spec a b)
  end.

(** Splits a conjunction of five, leaving quantifiers in place. *)
Ltac split5 := split; [|split; [|split; [|split]]].

(** * Properties of the cache *)

Section CacheProperties.
Import Cache.
Context {Any : Type}.
Implicit Types (w : World Any) (key : string) (value : Any).

Lemma get_unfold key w :
  get key w =
    match _cache w !! key with
    | None => (Ok None, w)
    | Some entry =>
        if expires_at entry <? clock_now (wall w)
        then (Ok None, {| _cache := delete key (_cache w);
                          wall := clock_tick (wall w) |})
        else (Ok (Some (data entry)),
              {| _cache := _cache w; wall := clock_tick (wall w) |})
    end.
Proof.
  unfold get, bind, gets, is_expired, datetime_now, set_cache, modify, ret.
  destruct (_cache w !! key) as [entry|]; [|done]. simpl.
  by destruct (expires_at entry <? clock_now (wall w)).
Qed.

Lemma set_unfold key value ttl_seconds w :
  set key value ttl_seconds w =
    (Ok tt,
     {| _cache :=
          <[key := {| data := value;
                      timestamp := clock_now (clock_tick (wall w));
                      expires_at := clock_now (wall w)
                                    + timedelta_seconds ttl_seconds |}]>
            (_cache w);
        wall := clock_tick (clock_tick (wall w)) |}).
Proof. reflexivity. Qed.

Lemma invalidate_unfold key w :
  invalidate key w = (Ok tt, {| _cache := delete key (_cache w); wall := wall w |}).
Proof.
  unfold invalidate, bind, gets, set_cache, modify, ret.
  destruct (decide (is_Some (_cache w !! key))) as [|Hno]; [done|].
  rewrite delete_id; [by destruct w|].
  by apply eq_None_not_Some.
Qed.

(** A value is read back as long as the reading [get] takes is not past
    the expiry time [set] computed. *)
Lemma get_set_within key value ttl_seconds w :
  clock_now (clock_tick (clock_tick (wall w)))
    ≤ clock_now (wall w) + timedelta_seconds ttl_seconds →
  fst (get key (snd (set key value ttl_seconds w))) = Ok (Some value).
Proof.
  intros Hnow. rewrite set_unfold, get_unfold. simpl.
  rewrite lookup_insert_eq. simpl.
  case_ltb; [|done].
  unfold clock_now, clock_tick in *. simpl in *. lia.
Qed.


(** C3. [get(k)] returns the stored value unless the entry is absent or
    expired; a value it returns is the data of an entry that has not
    expired (never one with [now > expires_at]); an expired entry is
    deleted by the lookup; [get] never raises, and reports absence and
    expiry alike as [None]. *)
Theorem cache_get_spec key w :
  let now := clock_now (wall w) in
  (_cache w !! key = None → get key w = (Ok None, w)) ∧
  (∀ entry, _cache w !! key = Some entry → now ≤ expires_at entry →
     fst (get key w) = Ok (Some (data entry)) ∧
     _cache (snd (get key w)) = _cache w) ∧
  (∀ entry, _cache w !! key = Some entry → expires_at entry < now →
     fst (get key w) = Ok None ∧
     _cache (snd (get key w)) = delete key (_cache w) ∧
     _cache (snd (get key w)) !! key = None) ∧
  (∀ value, fst (get key w) = Ok (Some value) →
     ∃ entry, _cache w !! key = Some entry ∧ data entry = value ∧
              ¬ (now > expires_at entry)) ∧
  (∀ e, fst (get key w) ≠ Raise e).
Proof.
  intros now. subst now. rewrite get_unfold.
  destruct (_cache w !! key) as [entry|] eqn:Hkey.
  - destruct (Z.ltb_spec (expires_at entry) (clock_now (wall w))) as [Hlt|Hge];
      simpl; (split; [done|]); (split; [|split; [|split; [|done]]]).
    + intros ? [= <-] ?. lia.
    + intros ? [= <-] ?. by rewrite lookup_delete_eq.
    + done.
    + by intros ? [= <-] ?.
    + intros ? [= <-] ?. lia.
    + intros ? [= <-]. exists entry. split; [done|]. split; [done|lia].
  - simpl. split; [done|]. by repeat split.
Qed.





(** X1. [invalidate(k)] followed by [get(k)] returns [None], whatever
    time the entry had left; the lookup then leaves the cache alone. *)
Theorem cache_get_after_invalidate key w :
  fst (invalidate key w) = Ok tt ∧
  _cache (snd (invalidate key w)) !! key = None ∧
  get key (snd (invalidate key w)) = (Ok None, snd (invalidate key w)).
Proof.
  rewrite invalidate_unfold, get_unfold. simpl.
  by rewrite lookup_delete_eq.
Qed.

End CacheProperties.

Lemma no_time_passes_frozen n t : no_time_passes n (frozen_clock t).
Proof. by intros i _. Qed.



Lemma cache_get_spec_witness :
  fst (Cache.get "dashboard_stats" dashboard_cache) = Ok (Some "5 items"%string) ∧
  fst (Cache.get "dashboard_stats" dashboard_cache_later) = Ok None ∧
  Cache._cache (snd (Cache.get "dashboard_stats" dashboard_cache_later))
    !! "dashboard_stats" = None ∧
  Cache.get "dashboard_items" dashboard_cache = (Ok None, dashboard_cache).
Proof.
  pose (e := {| Cache.data := "5 items"%string; Cache.timestamp := 1000;
                Cache.expires_at := 10001000 |}).
  assert (Cache._cache dashboard_cache !! "dashboard_stats" = Some e) as Hin
    by reflexivity.
  split; [|split; [|split]].
  - apply (proj1 (proj2 (cache_get_spec "dashboard_stats" dashboard_cache)) e Hin).
    simpl. lia.
  - apply (proj1 (proj2 (proj2
             (cache_get_spec "dashboard_stats" dashboard_cache_later))) e Hin).
    simpl. lia.
  - apply (proj1 (proj2 (proj2
             (cache_get_spec "dashboard_stats" dashboard_cache_later))) e Hin).
    simpl. lia.
  - apply (proj1 (cache_get_spec "dashboard_items" dashboard_cache)).
    reflexivity.
Defined.



(** * Properties of the WebSocket manager *)

Section NotifierProperties.
Import WebsocketManager.
Context (json_dumps : Message → string).
Implicit Types (w : World) (message : Message) (c : WebSocket).

Abbreviation broadcast := (broadcast json_dumps).
Abbreviation notify_data_change := (notify_data_change json_dumps).
Abbreviation perform := (perform json_dumps).
Abbreviation perform_all := (perform_all json_dumps).

Lemma failed_cons ev evs :
  failed (ev :: evs) =
    if returned ev then failed evs else {[receiver ev]} ∪ failed evs.
Proof.
  unfold failed. rewrite filter_cons.
  case_decide as Hev; destruct (returned ev); done.
Qed.

Lemma run_others_app ts1 ts2 m :
  run_others (ts1 ++ ts2) m = run_others ts2 (run_others ts1 m).
Proof. apply foldl_app. Qed.

Lemma send_to_all_cons message_str c rest d w :
  send_to_all message_str (c :: rest) d w =
    send_to_all message_str rest
      (match transport w (length (wire w)) c message_str with
       | Ok _ => d
       | Raise _ => {[c]} ∪ d
       end)
      (snd (send_text c message_str w)).
Proof.
  simpl. unfold bind at 1. unfold try_except, bind, send_text, ret. simpl.
  by destruct (transport w (length (wire w)) c message_str).
Qed.

(** The sweep: one call of [send_text] per session of the copy, in the
    order of the copy, whatever the calls before it did; it raises
    nothing, collects the sessions whose call raised, and leaves the
    manager to the other tasks. *)
Lemma send_to_all_spec message_str copy d w :
  ∃ evs,
    fst (send_to_all message_str copy d w) = Ok (d ∪ failed evs) ∧
    wire (snd (send_to_all message_str copy d w)) = wire w ++ evs ∧
    receiver <$> evs = copy ∧
    (∀ i ev, evs !! i = Some ev →
       text ev = message_str ∧
       outcome ev = transport w (length (wire w) + i) (receiver ev) message_str) ∧
    manager (snd (send_to_all message_str copy d w)) =
      run_others (others_during w (length (wire w)) (length copy)) (manager w) ∧
    timer (snd (send_to_all message_str copy d w)) = timer w ∧
    accepts (snd (send_to_all message_str copy d w)) = accepts w ∧
    transport (snd (send_to_all message_str copy d w)) = transport w ∧
    scheduler (snd (send_to_all message_str copy d w)) = scheduler w.
Proof.
  revert d w. induction copy as [|c rest IH]; intros d w.
  - exists []. simpl. rewrite app_nil_r.
    repeat split; try done. f_equal. unfold failed. simpl. set_solver.
  - rewrite send_to_all_cons.
    set (r := transport w (length (wire w)) c message_str).
    set (ev := {| receiver := c; text := message_str; outcome := r |}).
    set (d1 := match r with Ok _ => d | Raise _ => {[c]} ∪ d end).
    set (w1 := snd (send_text c message_str w)).
    destruct (IH d1 w1) as (evs & Hres & Hwire & Hrecv & Hevs & Hman & Ht & Ha & Htr & Hs).
    assert (length (wire w1) = S (length (wire w))) as Hlen.
    { subst w1. simpl. rewrite length_app. simpl. lia. }
    exists (ev :: evs). rewrite Hres, Hwire, Hman, Ht, Ha, Htr, Hs.
    split; [|split; [|split; [|split; [|split]]]].
    + f_equal. rewrite failed_cons. subst d1 ev. unfold returned. simpl.
      destruct r; set_solver.
    + subst w1. simpl. by rewrite <- app_assoc.
    + by rewrite fmap_cons, Hrecv.
    + intros [|i] ev' Hi.
      * injection Hi as <-. simpl. by rewrite Nat.add_0_r.
      * simpl in Hi. destruct (Hevs i ev' Hi) as [Htext Hout].
        split; [done|]. rewrite Hout, Hlen. subst w1. simpl.
        f_equal. lia.
    + rewrite Hlen. unfold others_during. simpl.
      rewrite run_others_app. by subst w1.
    + by subst w1.
Qed.

Lemma run_others_fields ts m :
  last_notification_time (run_others ts m) = last_notification_time m ∧
  min_notification_interval (run_others ts m) = min_notification_interval m.
Proof.
  revert m. induction ts as [|t ts IH]; intros m; [done|].
  simpl. destruct (IH (run_other t m)) as [-> ->]. by destruct t.
Qed.

Lemma run_others_set_last ts t m :
  active_connections (run_others ts (set_last_notification_time t m)) =
  active_connections (run_others ts m).
Proof.
  revert m. induction ts as [|t' ts IH]; intros m; [done|].
  destruct t' as [c|c].
  - exact (IH (run_other (Connects c) m)).
  - exact (IH (run_other (Disconnects c) m)).
Qed.

Lemma run_others_keeps_out c ts m :
  c ∉ active_connections m → Connects c ∉ ts →
  c ∉ active_connections (run_others ts m).
Proof.
  revert m. induction ts as [|t ts IH]; intros m Hout Hts; [done|].
  simpl. apply IH; [|set_solver].
  destruct t as [c'|c']; simpl; [|set_solver].
  assert (c' ≠ c) by (intros ->; set_solver). set_solver.
Qed.

Lemma others_during_quiet c w n k :
  never_reconnected c w → Connects c ∉ others_during w n k.
Proof.
  intros Hq. unfold others_during. revert n.
  induction k as [|k IH]; intros n; simpl; [set_solver|].
  rewrite elem_of_app. intros [Hin|Hin]; [by apply (Hq n)|by apply (IH (S n))].
Qed.

Lemma broadcast_skips message w :
  rate_limited w ∨ active_connections (manager w) = ∅ →
  broadcast message w = (Ok tt, after_reading w).
Proof.
  unfold rate_limited, broadcast, after_reading, bind, gets, time_time, ret.
  simpl. intros Hskip. case_ltb; [done|].
  destruct (decide (active_connections (manager w) = ∅)); [done|].
  destruct Hskip; [lia|done].
Qed.

(** A broadcast that passes both tests: what it returns and the world it
    leaves. *)
Lemma broadcast_sends message w :
  ¬ rate_limited w → active_connections (manager w) ≠ ∅ →
  ∃ evs,
    fst (broadcast message w) = Ok tt ∧
    wire (snd (broadcast message w)) = wire w ++ evs ∧
    receiver <$> evs = elements (active_connections (manager w)) ∧
    (∀ i ev, evs !! i = Some ev →
       text ev = json_dumps message ∧
       outcome ev = transport w (length (wire w) + i) (receiver ev)
                      (json_dumps message)) ∧
    active_connections (manager (snd (broadcast message w))) =
      active_connections
        (run_others (others_during w (length (wire w)) (length evs)) (manager w))
      ∖ failed evs ∧
    last_notification_time (manager (snd (broadcast message w))) =
      clock_now (timer w) ∧
    min_notification_interval (manager (snd (broadcast message w))) =
      min_notification_interval (manager w) ∧
    timer (snd (broadcast message w)) = clock_tick (timer w) ∧
    accepts (snd (broadcast message w)) = accepts w ∧
    transport (snd (broadcast message w)) = transport w ∧
    scheduler (snd (broadcast message w)) = scheduler w.
Proof.
  intros Hrate Hactive.
  set (w1 := {| manager := set_last_notification_time (clock_now (timer w))
                             (manager w);
                timer := clock_tick (timer w); accepts := accepts w;
                transport := transport w; scheduler := scheduler w;
                wire := wire w |}).
  set (copy := elements (active_connections (manager w))).
  assert (broadcast message w =
            match send_to_all (json_dumps message) copy ∅ w1 with
            | (Ok d, w2) => set_manager (set_active (λ s, s ∖ d)) w2
            | (Raise e, w2) => (Raise e, w2)
            end) as ->.
  { unfold rate_limited in Hrate.
    unfold broadcast, bind, gets, time_time, ret, set_manager, modify. simpl.
    case_ltb; [lia|].
    destruct (decide (active_connections (manager w) = ∅)); [done|].
    cbn [manager timer accepts transport scheduler wire active_connections
         set_last_notification_time].
    done. }
  destruct (send_to_all_spec (json_dumps message) copy ∅ w1)
    as (evs & Hres & Hwire & Hrecv & Hevs & Hman & Ht & Ha & Htr & Hs).
  destruct (send_to_all (json_dumps message) copy ∅ w1) as [r w2].
  simpl in *. subst r. simpl.
  assert (length evs = length copy) as Hlen
    by (by rewrite <- Hrecv, length_fmap).
  change (others_during w1) with (others_during w) in Hman.
  exists evs. rewrite Hman, Hlen.
  destruct (run_others_fields (others_during w (length (wire w)) (length copy))
              (set_last_notification_time (clock_now (timer w)) (manager w)))
    as [Hlast Hmin].
  rewrite Hlast, Hmin, run_others_set_last.
  repeat split; try done.
  - by apply (Hevs i ev).
  - by apply (Hevs i ev).
  - set_solver.
Qed.

Lemma notify_data_change_unfold change_type details w :
  notify_data_change change_type details w =
  broadcast (data_change_message change_type (clock_now (timer w)) details)
    (after_reading w).
Proof. reflexivity. Qed.

Lemma broadcast_keeps_out c message w :
  c ∉ active_connections (manager w) → never_reconnected c w →
  (c ∉ active_connections (manager (snd (broadcast message w)))) ∧
  scheduler (snd (broadcast message w)) = scheduler w ∧
  ∃ evs, wire (snd (broadcast message w)) = wire w ++ evs ∧
         c ∉ (receiver <$> evs).
Proof.
  intros Hout Hquiet.
  destruct (Z_lt_dec (clock_now (timer w) - last_notification_time (manager w))
              (min_notification_interval (manager w))) as [Hrate|Hrate];
    [|destruct (decide (active_connections (manager w) = ∅)) as [Hnone|Hsome]].
  - rewrite broadcast_skips by (by left).
    repeat split; [done|]. exists []. rewrite app_nil_r. set_solver.
  - rewrite broadcast_skips by (by right).
    repeat split; [done|]. exists []. rewrite app_nil_r. set_solver.
  - destruct (broadcast_sends message w Hrate Hsome)
      as (evs & _ & Hwire & Hrecv & _ & Hactive & _ & _ & _ & _ & _ & Hs).
    split; [|split; [done|]].
    + rewrite Hactive.
      pose proof (run_others_keeps_out c _ (manager w) Hout
                    (others_during_quiet c w (length (wire w)) (length evs) Hquiet)).
      set_solver.
    + exists evs. split; [done|]. rewrite Hrecv. set_solver.
Qed.

Lemma perform_keeps_out c (call : call) w :
  c ∉ active_connections (manager w) → call ≠ CallConnect c →
  never_reconnected c w →
  (c ∉ active_connections (manager (perform call w))) ∧
  scheduler (perform call w) = scheduler w ∧
  ∃ evs, wire (perform call w) = wire w ++ evs ∧ c ∉ (receiver <$> evs).
Proof.
  intros Hout Hcall Hquiet. destruct call as [c'|c'|message|change_type details].
  - assert (c' ≠ c) by congruence.
    unfold perform, connect, accept, bind, set_manager, modify.
    destruct (accepts w c'); simpl.
    + split; [set_solver|]. split; [done|].
      exists []. rewrite app_nil_r. set_solver.
    + split; [done|]. split; [done|].
      exists []. rewrite app_nil_r. set_solver.
  - simpl. split; [set_solver|]. split; [done|].
    exists []. rewrite app_nil_r. set_solver.
  - by apply broadcast_keeps_out.
  - unfold perform. rewrite notify_data_change_unfold.
    by apply (broadcast_keeps_out c _ (after_reading w)).
Qed.

Lemma perform_all_keeps_out c (cs : list call) w :
  c ∉ active_connections (manager w) →
  Forall (λ call, call ≠ CallConnect c) cs →
  never_reconnected c w →
  ∃ evs, wire (perform_all cs w) = wire w ++ evs ∧ c ∉ (receiver <$> evs).
Proof.
  revert w. induction cs as [|call cs IH]; intros w Hout Hcs Hquiet.
  - exists []. simpl. rewrite app_nil_r. set_solver.
  - apply Forall_cons in Hcs as [Hcall Hcs].
    destruct (perform_keeps_out c call w Hout Hcall Hquiet)
      as (Hout' & Hs & evs1 & Hwire1 & Hevs1).
    destruct (IH (perform call w) Hout' Hcs) as (evs2 & Hwire2 & Hevs2).
    { intros n. rewrite Hs. apply Hquiet. }
    exists (evs1 ++ evs2).
    change (perform_all (call :: cs) w) with (perform_all cs (perform call w)).
    rewrite Hwire2, Hwire1, <- app_assoc. split; [done|].
    rewrite fmap_app. set_solver.
Qed.

(** C4. A broadcast called less than the minimum interval after the time
    the last executed broadcast recorded returns without sending: nothing
    is added to the wire and the manager is untouched.  A broadcast that
    does send records the time it read.  So with one active session that
    takes the message, an interval of one second, and two
    [notify_data_change] calls whose broadcasts read the clock less than a
    second apart (the first one not itself within a second of an earlier
    broadcast), exactly one message reaches the session. *)
Theorem broadcast_rate_limit c message change_type1 details1 change_type2
    details2 w :
  let message1 := data_change_message change_type1 (clock_now (timer w)) details1 in
  let sent_at := clock_now (clock_tick (timer w)) in
  let called_again_at := clock_now (clock_tick (clock_tick (clock_tick (timer w)))) in
  let w1 := snd (notify_data_change change_type1 details1 w) in
  let w2 := snd (notify_data_change change_type2 details2 w1) in
  (rate_limited w →
     fst (broadcast message w) = Ok tt ∧
     wire (snd (broadcast message w)) = wire w ∧
     manager (snd (broadcast message w)) = manager w) ∧
  (¬ rate_limited w → active_connections (manager w) ≠ ∅ →
     last_notification_time (manager (snd (broadcast message w))) =
       clock_now (timer w)) ∧
  (active_connections (manager w) = {[c]} →
   min_notification_interval (manager w) = timedelta_seconds 1 →
   ¬ (sent_at - last_notification_time (manager w) < timedelta_seconds 1) →
   transport w (length (wire w)) c (json_dumps message1) = Ok tt →
   called_again_at - sent_at < timedelta_seconds 1 →
   wire w2 = wire w ++ [ {| receiver := c; text := json_dumps message1;
                            outcome := Ok tt |} ] ∧
   delivered_to c w2 = delivered_to c w ++ [json_dumps message1]).
Proof.
  intros message1 sent_at called_again_at w1 w2.
  split; [|split].
  - intros Hrate. by rewrite broadcast_skips by (by left).
  - intros Hrate Hactive.
    by destruct (broadcast_sends message w Hrate Hactive)
      as (evs & _ & _ & _ & _ & _ & Hlast & _).
  - intros Hone Hmin Hfirst Hsend Hsecond.
    assert (¬ rate_limited (after_reading w)) as Hrate1.
    { unfold rate_limited. simpl. rewrite Hmin. exact Hfirst. }
    assert (active_connections (manager (after_reading w)) ≠ ∅) as Hactive1.
    { simpl. rewrite Hone. set_solver. }
    destruct (broadcast_sends message1 (after_reading w) Hrate1 Hactive1)
      as (evs & _ & Hwire & Hrecv & Hevs & _ & Hlast & Hmin1 & Ht & _).
    fold (notify_data_change change_type1 details1 w) in *.
    change (snd (broadcast message1 (after_reading w))) with w1 in *.
    simpl in Hrecv. rewrite Hone, elements_singleton in Hrecv.
    destruct evs as [|ev [|ev' evs]]; try done.
    injection Hrecv as Hc.
    destruct (Hevs 0%nat ev eq_refl) as [Htext Hout].
    simpl in Hout, Hwire. rewrite Nat.add_0_r, Hc, Hsend in Hout.
    assert (ev = {| receiver := c; text := json_dumps message1;
                    outcome := Ok tt |}) as -> by (destruct ev; simpl in *; congruence).
    assert (rate_limited (after_reading w1)) as Hrate2.
    { unfold rate_limited. simpl. rewrite Hlast, Hmin1, Ht. simpl.
      rewrite Hmin. exact Hsecond. }
    assert (wire w2 = wire w1) as Hwire2.
    { subst w2. rewrite notify_data_change_unfold.
      by rewrite broadcast_skips by (by left). }
    split; [by rewrite Hwire2, Hwire|].
    unfold delivered_to. rewrite Hwire2, Hwire, filter_app, fmap_app.
    f_equal. rewrite filter_cons. simpl. by rewrite decide_True.
Qed.

(** C5. A broadcast that passes both tests calls [send_text] once on
    every session of the copy it takes of the active set on entry, in the
    order of the copy, with the serialised message: a call that raises
    does not stop the calls that follow it, and nothing the other tasks do
    to the set while a call is awaited changes the sessions called.  The
    sessions whose call raised are taken out of the set as it stands once
    the last call is over.  Such a session is not in the set when
    [broadcast] returns, and no later call on the manager sends to it,
    unless it is connected again. *)
Theorem broadcast_sweeps_snapshot message w :
  ¬ rate_limited w → active_connections (manager w) ≠ ∅ →
  ∃ evs,
    fst (broadcast message w) = Ok tt ∧
    wire (snd (broadcast message w)) = wire w ++ evs ∧
    receiver <$> evs = elements (active_connections (manager w)) ∧
    (∀ c, c ∈ active_connections (manager w) →
       ∃ ev, ev ∈ evs ∧ receiver ev = c ∧ text ev = json_dumps message) ∧
    active_connections (manager (snd (broadcast message w))) =
      active_connections
        (run_others (others_during w (length (wire w)) (length evs)) (manager w))
      ∖ failed evs ∧
    ∀ c, c ∈ failed evs →
      (c ∉ active_connections (manager (snd (broadcast message w)))) ∧
      ∀ cs : list call,
        Forall (λ call, call ≠ CallConnect c) cs →
        never_reconnected c w →
        c ∉ (receiver <$> drop (length (wire (snd (broadcast message w))))
                            (wire (perform_all cs (snd (broadcast message w))))).
Proof.
  intros Hrate Hactive.
  destruct (broadcast_sends message w Hrate Hactive)
    as (evs & Hres & Hwire & Hrecv & Hevs & Hafter & _ & _ & _ & _ & _ & Hs).
  exists evs. split; [done|]. split; [done|]. split; [done|].
  split; [|split; [done|]].
  - intros c Hc. apply elem_of_elements in Hc. rewrite <- Hrecv in Hc.
    apply list_elem_of_fmap in Hc as (ev & -> & Hev).
    exists ev. split; [done|]. split; [done|].
    apply list_elem_of_lookup in Hev as [i Hi]. by apply (Hevs i ev).
  - intros c Hc.
    assert (c ∉ active_connections (manager (snd (broadcast message w))))
      as Hout by (rewrite Hafter; set_solver).
    split; [done|]. intros cs Hcs Hquiet.
    destruct (perform_all_keeps_out c cs (snd (broadcast message w)) Hout Hcs)
      as (evs' & Hwire' & Hevs').
    { intros n. rewrite Hs. apply Hquiet. }
    by rewrite Hwire', drop_app_length.
Qed.


(** X4. [disconnect(websocket)] takes the session out of the active set
    and touches nothing else; on a session that is not in the set it is a
    no-op, so disconnecting twice is disconnecting once.  It never
    raises. *)
Theorem disconnect_idempotent (websocket : WebSocket) w :
  let w' := snd (disconnect websocket w) in
  fst (disconnect websocket w) = Ok tt ∧
  active_connections (manager w')
    = active_connections (manager w) ∖ {[websocket]} ∧
  wire w' = wire w ∧
  last_notification_time (manager w') = last_notification_time (manager w) ∧
  disconnect websocket w' = (Ok tt, w').
Proof.
  intros w'. subst w'. unfold disconnect, set_manager, set_active, modify.
  simpl. repeat split. do 3 f_equal. set_solver.
Qed.
End NotifierProperties.

Lemma broadcast_rate_limit_witness :
  let w := burst in
  let message1 :=
    WebsocketManager.data_change_message "item_created" 1700000000000000 None in
  let w1 := snd (WebsocketManager.notify_data_change show_keys "item_created" None w) in
  let w2 := snd (WebsocketManager.notify_data_change show_keys "item_updated" None w1) in
  (WebsocketManager.rate_limited too_early ∧
   WebsocketManager.wire
     (snd (WebsocketManager.broadcast show_keys test_message too_early)) = []) ∧
  (¬ WebsocketManager.rate_limited w ∧
   WebsocketManager.last_notification_time
     (WebsocketManager.manager
        (snd (WebsocketManager.broadcast show_keys test_message w)))
   = 1700000000000000) ∧
  (1700000000400100 - 1700000000000100 < timedelta_seconds 1 ∧
   WebsocketManager.delivered_to 1%nat w2 = [show_keys message1]).
Proof.
  intros w message1 w1 w2.
  pose proof (broadcast_rate_limit show_keys 1%nat test_message
                "item_created" None "item_updated" None) as H.
  assert (WebsocketManager.rate_limited too_early) as Hearly by (vm_compute; reflexivity).
  assert (¬ WebsocketManager.rate_limited w) as Hrate by (vm_compute; discriminate).
  split; [|split].
  - split; [done|]. by apply (H too_early).
  - split; [done|]. apply (H w); [done|].
    subst w. unfold burst, dashboard. simpl. set_solver.
  - split; [unfold timedelta_seconds; lia|].
    apply (H burst).
    + reflexivity.
    + reflexivity.
    + vm_compute. discriminate.
    + reflexivity.
    + vm_compute. reflexivity.
Defined.

Lemma one_broken_sends :
  ¬ WebsocketManager.rate_limited one_broken ∧
  WebsocketManager.active_connections (WebsocketManager.manager one_broken) ≠ ∅.
Proof.
  split; [vm_compute; discriminate|].
  simpl. set_solver.
Qed.

Lemma broadcast_sweeps_snapshot_witness :
  let w' := snd (WebsocketManager.broadcast show_keys test_message one_broken) in
  let later :=
    WebsocketManager.perform_all show_keys
      [WebsocketManager.CallBroadcast test_message] w' in
  WebsocketManager.receiver <$> WebsocketManager.wire w' =
    elements (WebsocketManager.active_connections
                (WebsocketManager.manager one_broken)) ∧
  2%nat ∈ WebsocketManager.failed (WebsocketManager.wire w') ∧
  (2%nat ∉ WebsocketManager.active_connections (WebsocketManager.manager w')) ∧
  2%nat ∉ (WebsocketManager.receiver <$>
             drop (length (WebsocketManager.wire w')) (WebsocketManager.wire later)).
Proof.
  intros w' later.
  destruct (broadcast_sweeps_snapshot show_keys test_message one_broken
              (proj1 one_broken_sends) (proj2 one_broken_sends))
    as (evs & _ & Hwire & Hrecv & _ & _ & Hfailed).
  change (WebsocketManager.wire w' = evs) in Hwire. subst evs.
  assert (2%nat ∈ WebsocketManager.failed (WebsocketManager.wire w')) as Hin.
  { assert (WebsocketManager.wire w' =
            [ {| WebsocketManager.receiver := 2%nat;
                 WebsocketManager.text := "type,data";
                 WebsocketManager.outcome :=
                   Raise (Exception "Exception" "Connection failed") |};
              {| WebsocketManager.receiver := 1%nat;
                 WebsocketManager.text := "type,data";
                 WebsocketManager.outcome := Ok tt |} ]) as ->
      by (vm_compute; reflexivity).
    rewrite failed_cons. simpl. set_solver. }
  split; [exact Hrecv|]. split; [exact Hin|].
  destruct (Hfailed 2%nat Hin) as [Hout Hlater].
  split; [exact Hout|].
  apply Hlater.
  - by repeat constructor.
  - intros n. simpl. set_solver.
Defined.



(** * Properties of the backup coordinator *)

Section BackupProperties.
Import DbPersistence.
Implicit Types (w : World) (force : bool).

(** Unfolds a method down to the case analyses it makes. *)
Ltac unfold_method :=
  unfold backup_database, restore_database, mark_data_change,
    after_first_test, after_now,
    exists_, stat_st_size, board_pin_upload, mkdir, board_pin_download, copy2,
    external, logger, set_self, datetime_now, try_except, bind, gets, modify, ret;
  simpl.

Ltac unfold_methods :=
  unfold_method; unfold should_backup_now; unfold_method.

Lemma should_backup_now_unfold w :
  should_backup_now w =
    match last_data_change_time (self w) with
    | None => (Ok false, w)
    | Some changed =>
        (Ok match last_backup_time (self w) with
            | None => true
            | Some backed_up =>
                (timedelta_hours (backup_interval_hours (self w))
                   <=? clock_now (wall w) - backed_up)
                && (backed_up <? changed)
            end,
         after_now w)
    end.
Proof.
  unfold_methods.
  destruct (last_data_change_time (self w)) as [changed|]; [|done].
  destruct (last_backup_time (self w)) as [backed_up|]; [|done].
  by destruct (_ && _).
Qed.

Lemma should_backup_now_frame w :
  self (snd (should_backup_now w)) = self w ∧
  env (snd (should_backup_now w)) = env w ∧
  io (snd (should_backup_now w)) = io w ∧
  log (snd (should_backup_now w)) = log w.
Proof.
  rewrite should_backup_now_unfold.
  by destruct (last_data_change_time (self w)).
Qed.

(** [should_backup_now] computes the spec's "backup needed". *)
Lemma should_backup_now_needed w :
  ∃ b, fst (should_backup_now w) = Ok b ∧
       (b = true ↔ backup_needed (self w) (clock_now (wall w))).
Proof.
  rewrite should_backup_now_unfold. unfold backup_needed.
  destruct (last_data_change_time (self w)) as [changed|]; simpl.
  - destruct (last_backup_time (self w)) as [backed_up|]; simpl.
    + eexists. split; [done|].
      rewrite andb_true_iff, Z.leb_le, Z.ltb_lt. split.
      * intros [Hint Hch]. exists changed. split; [done|]. right.
        exists backed_up. split; [done|]. lia.
      * intros (changed' & [= <-] & [?|(backed_up' & [= <-] & ? & ?)]);
          [done|lia].
    + exists true. split; [done|]. split; [|done].
      intros _. exists changed. by split; [|left].
  - exists false. split; [done|]. split; [done|].
    by intros (changed & ? & _).
Qed.

(** C10. Whenever [backup_database] returns [False] (backup not needed,
    no board, no local file, or an error on the way to the upload), the
    object is as it was: [last_backup_time] and [last_data_change_time] in
    particular.  [last_data_change_time] is never written, and a call
    that changed [last_backup_time] returned [True]. *)
Theorem backup_database_failure_frame force w :
  let w' := snd (backup_database force w) in
  (fst (backup_database force w) = Ok false →
     last_backup_time (self w') = last_backup_time (self w) ∧
     last_data_change_time (self w') = last_data_change_time (self w) ∧
     self w' = self w) ∧
  last_data_change_time (self w') = last_data_change_time (self w) ∧
  (last_backup_time (self w') ≠ last_backup_time (self w) →
     fst (backup_database force w) = Ok true).
Proof.
  unfold_methods. repeat case_match; simplify_eq; simpl; by repeat split.
Qed.

Lemma after_first_test_frame force w :
  self (after_first_test force w) = self w ∧
  env (after_first_test force w) = env w ∧
  io (after_first_test force w) = io w ∧
  log (after_first_test force w) = log w.
Proof.
  unfold after_first_test. destruct force; [done|].
  apply should_backup_now_frame.
Qed.

(** The first test of [backup_database]: it skips the backup exactly when
    the backup is not due. *)
Lemma first_test_run force w :
  ∃ skip,
    (if force then ret false
     else (should <- should_backup_now; ret (negb should))%py) w
    = (Ok skip, after_first_test force w) ∧
    (skip = false ↔ backup_due force w).
Proof.
  unfold backup_due, after_first_test, bind, ret. destruct force.
  - exists false. naive_solver.
  - destruct (should_backup_now_needed w) as (b & Hb & _).
    destruct (should_backup_now w) as [r w1]. simpl in *. subst r.
    exists (negb b). split; [done|]. destruct b; naive_solver.
Qed.


(** C7. [restore_database()] never raises.  With a board, it makes the
    parent directory of the database path (and its parents), downloads
    the pin of the configured name and copies the first downloaded file
    over the database path: when all of this goes through it returns
    [True].  In every other case (no board, no file downloaded, or an
    exception in any of the three calls) it returns [False]. *)
Theorem restore_database_spec w :
  let s := self w in
  let w' := snd (restore_database w) in
  (∀ e, fst (restore_database w) ≠ Raise e) ∧
  (board s = None → fst (restore_database w) = Ok false ∧ io w' = io w) ∧
  (∀ downloaded, restore_succeeds w downloaded →
     fst (restore_database w) = Ok true ∧
     io w' = io w ++ [Mkdir (parent (db_path s)) true true;
                      PinDownload (pin_name s);
                      Copy2 downloaded (db_path s)]) ∧
  ((∀ downloaded, ¬ restore_succeeds w downloaded) →
     fst (restore_database w) = Ok false) ∧
  self w' = self w.
Proof.
  intros s w'. subst s w'. unfold restore_succeeds. unfold_method.
  destruct (board (self w)) as [b|]; simpl.
  2: { split5; try done; by intros downloaded ([? ?] & _). }
  destruct (path_mkdir _ _ _ _ _) as [[]|e1]; simpl.
  2: { split5; try done; by intros downloaded (_ & ? & _). }
  destruct (pin_download _ _ _) as [[|f others]|e2]; simpl.
  1, 3: split5; try done; by intros downloaded (_ & _ & [? ?] & _).
  rewrite <- !app_assoc. simpl.
  destruct (shutil_copy2 _ _ _ _) as [[]|e3] eqn:Hcopy; simpl.
  - split5; try done.
    + by intros downloaded (_ & _ & [? [= <- <-]] & _).
    + intros Hnever. destruct (Hnever f). eauto 10.
  - split5; try done.
    intros downloaded (_ & _ & [? [= <- <-]] & Hcopy').
    rewrite Hcopy in Hcopy'. done.
Qed.


End BackupProperties.



Lemma restore_database_spec_witness :
  DbPersistence.restore_succeeds started cached_db ∧
  fst (DbPersistence.restore_database started) = Ok true ∧
  fst (DbPersistence.restore_database no_board) = Ok false ∧
  fst (DbPersistence.restore_database no_pin) = Ok false.
Proof.
  assert (DbPersistence.restore_succeeds started cached_db) as Hgood.
  { split; [by eexists|]. split; [done|]. split; [by exists []|done]. }
  pose proof (restore_database_spec started) as Hstarted.
  pose proof (restore_database_spec no_board) as Hno_board.
  pose proof (restore_database_spec no_pin) as Hno_pin.
  cbv zeta in Hstarted, Hno_board, Hno_pin.
  split; [done|]. split; [|split].
  - by apply (proj1 (proj2 (proj2 Hstarted)) cached_db).
  - by apply (proj1 (proj2 Hno_board)).
  - apply (proj1 (proj2 (proj2 (proj2 Hno_pin)))).
    by intros downloaded (_ & _ & [others ?] & _).
Defined.

Lemma backup_database_failure_frame_witness :
  DbPersistence.self (snd (DbPersistence.backup_database true no_pin))
    = DbPersistence.self no_pin ∧
  fst (DbPersistence.backup_database true written) = Ok true.
Proof.
  pose proof (backup_database_failure_frame true no_pin) as Hno_pin.
  pose proof (backup_database_failure_frame true written) as Hwritten.
  cbv zeta in Hno_pin, Hwritten.
  split.
  - by apply (proj1 Hno_pin).
  - by apply (proj2 (proj2 Hwritten)).
Defined.


(** * More of the cache: statistics and clearing *)

Lemma no_time_passes_tick k (c : Clock) :
  no_time_passes (S (S k)) c →
  clock_now (clock_tick c) = clock_now c ∧ no_time_passes (S k) (clock_tick c).
Proof.
  intros Hstill.
  assert (clock_now (clock_tick c) = clock_now c) as Hsame.
  { unfold clock_now at 1. simpl.
    replace (S (taken c)) with (taken c + 1)%nat by lia. apply Hstill. lia. }
  split; [done|]. intros i Hi. rewrite Hsame. simpl.
  pose proof (Hstill (S i)) as Hnext.
  replace (taken c + S i)%nat with (S (taken c + i)) in Hnext by lia.
  apply Hnext. lia.
Qed.

Section CacheStatistics.
Import Cache.
Context {Any : Type}.
Implicit Types (w : World Any) (key : string) (values : list (CacheEntry Any)).

Lemma count_expired_run values w :
  ∃ n, count_expired values w = (Ok n, after_readings (length values) w) ∧
       0 ≤ n ≤ Z.of_nat (length values) ∧
       (no_time_passes (length values) (wall w) →
          n = Z.of_nat (length (expired_at (clock_now (wall w)) values))).
Proof.
  revert w. induction values as [|entry rest IH]; intros w.
  - exists 0. unfold after_readings. simpl. rewrite Nat.add_0_r.
    split; [by destruct w as [? []]|]. split; [lia|done].
  - set (w1 := {| _cache := _cache w; wall := clock_tick (wall w) |}).
    destruct (IH w1) as (n & Hrun & Hn & Hfrozen).
    exists ((if expires_at entry <? clock_now (wall w) then 1 else 0) + n).
    split; [|split].
    + simpl. unfold bind at 1. unfold is_expired, bind, datetime_now, ret.
      fold w1. rewrite Hrun. unfold after_readings. simpl. do 4 f_equal. lia.
    + simpl length. case_ltb; lia.
    + intros Hstill. unfold expired_at. rewrite filter_cons.
      fold (expired_at (clock_now (wall w)) rest).
      assert (n = Z.of_nat (length (expired_at (clock_now (wall w)) rest)))
        as ->.
      { destruct rest as [|entry' rest'].
        - rewrite Hfrozen; [done|]. intros i Hi. simpl in Hi. lia.
        - destruct (no_time_passes_tick _ _ Hstill) as [Hsame Hstill'].
          rewrite Hfrozen; [by rewrite <- Hsame|done]. }
      case_ltb; [rewrite decide_True by done|rewrite decide_False by lia];
        simpl length; lia.
Qed.

(** X5. [get_stats()] counts, it does not evict: the cache is as it was,
    expired entries included, and only the clock was read (once per
    entry).  It never raises.  [total_entries] is the number of keys,
    [expired_entries] lies between 0 and [total_entries], and
    [active_entries] is their difference.  When no time passes during the
    scan, [expired_entries] is the number of stored entries whose expiry
    time is before now.  All of this holds in whatever order the
    dictionary yields its values. *)
Theorem cache_get_stats_spec values w :
  values ≡ₚ snd <$> map_to_list (_cache w) →
  ∃ stats,
    get_stats_over values w = (Ok stats, after_readings (size (_cache w)) w) ∧
    total_entries stats = Z.of_nat (size (_cache w)) ∧
    0 ≤ expired_entries stats ≤ total_entries stats ∧
    active_entries stats = total_entries stats - expired_entries stats ∧
    (no_time_passes (size (_cache w)) (wall w) →
       expired_entries stats
         = Z.of_nat (length (expired_at (clock_now (wall w))
                               (snd <$> map_to_list (_cache w))))).
Proof.
  intros Horder.
  assert (length values = size (_cache w)) as Hlen.
  { by rewrite Horder, length_fmap, length_map_to_list. }
  destruct (count_expired_run values w) as (n & Hrun & Hn & Hfrozen).
  exists {| total_entries := Z.of_nat (length values);
            expired_entries := n;
            active_entries := Z.of_nat (length values) - n |}.
  rewrite <- Hlen. simpl.
  split; [|split; [done|split; [lia|split; [done|]]]].
  - unfold get_stats_over, bind, ret. by rewrite Hrun.
  - intros Hstill. rewrite (Hfrozen Hstill). f_equal.
    apply Permutation_length. unfold expired_at. by rewrite Horder.
Qed.

(** X6. [clear()] never raises and leaves nothing behind: after it
    [get(k)] returns [None] for every key without reading the clock, and
    [get_stats()] reports no entry at all. *)
Theorem cache_clear_spec key w :
  let w' := snd (clear w) in
  fst (clear w) = Ok tt ∧
  get key w' = (Ok None, w') ∧
  get_stats w' = (Ok {| total_entries := 0; expired_entries := 0;
                        active_entries := 0 |}, w').
Proof.
  intros w'. subst w'. split; [done|]. split.
  - rewrite get_unfold. unfold clear, set_cache, modify. simpl.
    by rewrite lookup_empty.
  - unfold get_stats, get_stats_over, clear, set_cache, modify, bind, gets, ret.
    simpl. by rewrite map_to_list_empty.
Qed.
End CacheStatistics.

(** A cache with one live and one expired entry, the clock standing
    still 20 seconds after the first was stored. *)
Lemma cache_get_stats_spec_witness :
  let w : Cache.World string :=
    {| Cache._cache :=
         <["dashboard_items" := {| Cache.data := "no items"%string;
                                   Cache.timestamp := 15000000;
                                   Cache.expires_at := 25000000 |}]>
           (Cache._cache dashboard_cache);
       Cache.wall := frozen_clock 20000000 |} in
  fst (Cache.get_stats w)
    = Ok {| Cache.total_entries := 2; Cache.expired_entries := 1;
            Cache.active_entries := 1 |} ∧
  Cache._cache (snd (Cache.get_stats w)) = Cache._cache w.
Proof.
  intros w.
  destruct (cache_get_stats_spec (snd <$> map_to_list (Cache._cache w)) w)
    as (stats & Hrun & Htotal & _ & Hactive & Hexpired); [done|].
  specialize (Hexpired (no_time_passes_frozen _ _)).
  change (Cache.get_stats w) with
    (Cache.get_stats_over (snd <$> map_to_list (Cache._cache w)) w).
  rewrite Hrun. split; [|done]. simpl. f_equal.
  destruct stats as [total expired active]. simpl in *.
  assert (total = 2) as -> by (rewrite Htotal; vm_compute; reflexivity).
  assert (expired = 1) as -> by (rewrite Hexpired; vm_compute; reflexivity).
  by rewrite Hactive.
Defined.

(** * More of the manager: personal messages, connecting, the queue *)

Section ManagerProperties.
Import WebsocketManager.
Context (json_dumps : Message → string).
Implicit Types (w : World) (q : Queued) (message : Message) (c : WebSocket).

Abbreviation broadcast' := (broadcast json_dumps).
Abbreviation notify_data_change' := (notify_data_change json_dumps).
Abbreviation notify_each' := (notify_each json_dumps).
Abbreviation process_pass' := (process_pass json_dumps).

(** X7. [send_personal_message] never raises and calls [send_text] once
    on the session.  When the call raises, the session is out of the
    active set on return, whatever happened while the call was awaited;
    when it returns, the message is delivered and the manager has not
    touched the set. *)
Theorem send_personal_message_spec (text' : string) c w :
  let w' := snd (send_personal_message text' c w) in
  let r := transport w (length (wire w)) c text' in
  let others := scheduler w (length (wire w)) in
  fst (send_personal_message text' c w) = Ok tt ∧
  wire w' = wire w ++ [ {| receiver := c; text := text'; outcome := r |} ] ∧
  last_notification_time (manager w') = last_notification_time (manager w) ∧
  (∀ e, r = Raise e →
     active_connections (manager w')
       = active_connections (run_others others (manager w)) ∖ {[c]} ∧
     (c ∉ active_connections (manager w')) ∧
     delivered_to c w' = delivered_to c w) ∧
  (r = Ok tt →
     manager w' = run_others others (manager w) ∧
     delivered_to c w' = delivered_to c w ++ [text']).
Proof.
  intros w' r others. subst w' r others.
  unfold send_personal_message, try_except, send_text, disconnect,
    set_manager, modify, delivered_to.
  destruct (run_others_fields (scheduler w (length (wire w))) (manager w))
    as [Hlast _].
  destruct (transport w (length (wire w)) c text') as [[]|e] eqn:Hsend; simpl.
  - rewrite Hlast. split; [done|]. split; [done|]. split; [done|].
    split; [done|]. intros _. split; [done|].
    rewrite filter_app, fmap_app. f_equal.
    rewrite filter_cons. simpl. by rewrite decide_True.
  - rewrite Hlast. split; [done|]. split; [done|]. split; [done|].
    split; [|done]. intros e' _. split; [done|]. split; [set_solver|].
    rewrite filter_app, fmap_app, filter_cons. simpl.
    rewrite decide_False by (by intros [_ ?]). by rewrite app_nil_r.
Qed.

(** X8. [connect] registers the session only once the handshake is
    through: when [accept()] raises, [connect] raises the same exception
    and the manager is untouched; when it returns, the session is in the
    active set, and the next broadcast that passes the two tests sends to
    it. *)
Theorem connect_spec c message w :
  let w' := snd (connect c w) in
  (∀ e, accepts w c = Raise e → connect c w = (Raise e, w)) ∧
  (accepts w c = Ok tt →
     fst (connect c w) = Ok tt ∧
     active_connections (manager w') = {[c]} ∪ active_connections (manager w) ∧
     wire w' = wire w ∧
     (¬ rate_limited w' →
        ∃ ev, ev ∈ drop (length (wire w')) (wire (snd (broadcast' message w'))) ∧
              receiver ev = c ∧ text ev = json_dumps message)).
Proof.
  intros w'. subst w'. unfold connect, accept, bind, set_manager, modify.
  split.
  - by intros e ->.
  - intros ->. simpl. split; [done|]. split; [done|]. split; [done|].
    intros Hrate.
    set (w' := {| manager := set_active (λ s, {[c]} ∪ s) (manager w);
                  timer := timer w; accepts := accepts w;
                  transport := transport w; scheduler := scheduler w;
                  wire := wire w |}) in *.
    assert (active_connections (manager w') ≠ ∅) as Hactive
      by (simpl; set_solver).
    destruct (broadcast_sends json_dumps message w' Hrate Hactive)
      as (evs & _ & Hwire & Hrecv & Hevs & _).
    assert (c ∈ receiver <$> evs) as Hin
      by (rewrite Hrecv; apply elem_of_elements; simpl; set_solver).
    apply list_elem_of_fmap in Hin as (ev & -> & Hev).
    exists ev. split; [|split; [done|]].
    + rewrite Hwire. change (wire w') with (wire w).
      by rewrite drop_app_length.
    + apply list_elem_of_lookup in Hev as [i Hi]. by apply (Hevs i ev).
Qed.

Lemma after_readings_two w :
  after_reading (after_reading w) = after_readings 2 w.
Proof.
  unfold after_reading, after_readings, time_time. simpl.
  do 2 f_equal. unfold clock_tick. simpl. f_equal. lia.
Qed.

Lemma after_readings_add n k w :
  after_readings k (after_readings n w) = after_readings (n + k) w.
Proof.
  unfold after_readings. simpl. do 2 f_equal. lia.
Qed.

(** Notifications that all come within the interval after the last
    executed broadcast are read off the clock and dropped. *)
Lemma notify_each_dropped (notifications : list (string * Message)) w :
  (∀ j, (j < length notifications)%nat →
        readings (timer w) (taken (timer w) + (2 * j + 1))
          - last_notification_time (manager w)
          < min_notification_interval (manager w)) →
  notify_each' notifications w
    = (Ok tt, after_readings (2 * length notifications) w).
Proof.
  revert w. induction notifications as [|[change_type details] rest IH];
    intros w Hsoon.
  - simpl. unfold ret, after_readings. simpl. rewrite Nat.add_0_r.
    by destruct w as [? [] ? ? ? ?].
  - simpl notify_each. unfold bind at 1.
    rewrite notify_data_change_unfold, broadcast_skips.
    2: { left. unfold rate_limited. simpl.
         pose proof (Hsoon 0%nat) as H0. simpl in H0.
         replace (taken (timer w) + 1)%nat with (S (taken (timer w))) in H0
           by lia.
         apply H0. lia. }
    rewrite after_readings_two, IH.
    + rewrite after_readings_add. do 2 f_equal. simpl. lia.
    + intros j Hj. simpl.
      pose proof (Hsoon (S j)) as Hj'.
      replace (taken (timer w) + (2 * S j + 1))%nat
        with (taken (timer w) + 2 + (j + (j + 0) + 1))%nat in Hj' by lia.
      apply Hj'. simpl. lia.
Qed.

(** A turn of the loop never raises, empties the queue, and offers what
    it took to [notify_data_change], oldest first. *)
Lemma process_pass_run q :
  fst (process_pass' q) = Ok tt ∧
  notification_queue (snd (process_pass' q)) = [] ∧
  base (snd (process_pass' q))
    = snd (notify_each' (notification_queue q) (base q)).
Proof.
  unfold process_pass, try_except, bind, drain, on_base. simpl.
  by destruct (notify_each' (notification_queue q) (base q)) as [[[]|e] w1].
Qed.

(** X9. One turn of the queue loop takes every queued notification, in
    the order queued, and leaves the queue empty; it never raises, and on
    an empty queue it does nothing.  Of a burst it sends one message: when
    the first notification is broadcast and the others follow within the
    minimum interval, every session gets the first notification and the
    rest of the burst is dropped. *)
Theorem process_pass_burst change_type details rest q :
  let w := base q in
  let first := data_change_message change_type (clock_now (timer w)) (Some details) in
  let sent_at := clock_now (timer (after_reading w)) in
  let q' := snd (process_pass' q) in
  notification_queue q = (change_type, details) :: rest →
  ¬ rate_limited (after_reading w) →
  active_connections (manager w) ≠ ∅ →
  (∀ j, (j < length rest)%nat →
        readings (timer w) (taken (timer w) + (2 * S j + 1)) - sent_at
          < min_notification_interval (manager w)) →
  fst (process_pass' q) = Ok tt ∧
  notification_queue q' = [] ∧
  wire (base q') = wire (snd (notify_data_change' change_type (Some details) w)) ∧
  ∃ evs, wire (base q') = wire w ++ evs ∧
         receiver <$> evs = elements (active_connections (manager w)) ∧
         ∀ ev, ev ∈ evs → text ev = json_dumps first.
Proof.
  intros w first sent_at q' Hqueue Hrate Hactive Hsoon. subst q' sent_at.
  destruct (broadcast_sends json_dumps first (after_reading w) Hrate Hactive)
    as (evs & Hok & Hwire & Hrecv & Hevs & _ & Hlast & Hmin & Ht & _).
  destruct (process_pass_run q) as (Hres & Hempty & Hbase).
  rewrite Hres, Hempty, Hbase, Hqueue. fold w.
  set (w1 := snd (notify_data_change' change_type (Some details) w)).
  assert (snd (notify_each' ((change_type, details) :: rest) w)
          = after_readings (2 * length rest) w1) as ->.
  { subst w1. simpl notify_each. unfold bind at 1.
    rewrite notify_data_change_unfold. fold first.
    destruct (broadcast' first (after_reading w)) as [r w1]. simpl in *.
    subst r. rewrite notify_each_dropped; [done|].
    intros j Hj. rewrite Hlast, Hmin, Ht. simpl.
    pose proof (Hsoon j Hj) as Hj'. simpl in Hj'.
    replace (S (S (taken (timer w) + (j + (j + 0) + 1))))
      with (taken (timer w) + S (j + S (j + 0) + 1))%nat by lia.
    exact Hj'. }
  subst w1. rewrite notify_data_change_unfold. fold first. simpl.
  split; [done|]. split; [done|]. split; [done|].
  exists evs. split; [exact Hwire|]. split; [exact Hrecv|].
  intros ev [i Hi]%list_elem_of_lookup. by apply (Hevs i ev).
Qed.

(** X10. [queue_notification] never raises and puts the notification
    last in the queue, with an empty dictionary for missing details; a
    turn of the loop on an empty queue sends nothing and reads no clock;
    and what is queued and then taken by a turn is offered to
    [notify_data_change] in the order queued. *)
Theorem queue_notification_fifo change_type (details : option Message) q :
  let q' := snd (queue_notification change_type details q) in
  fst (queue_notification change_type details q) = Ok tt ∧
  notification_queue q'
    = notification_queue q ++ [(change_type, default [] details)] ∧
  base q' = base q ∧
  (notification_queue q = [] → process_pass' q = (Ok tt, q)) ∧
  base (snd (process_pass' q'))
    = snd (notify_each' (notification_queue q
                           ++ [(change_type, default [] details)]) (base q)).
Proof.
  intros q'. subst q'. split; [done|]. split; [done|]. split; [done|].
  split.
  - intros Hempty. unfold process_pass, try_except, bind, drain, on_base.
    rewrite Hempty. simpl. destruct q as [queue w]. simpl in *. by subst.
  - by destruct (process_pass_run (snd (queue_notification change_type details q)))
      as (_ & _ & ->).
Qed.
End ManagerProperties.

(** A session whose every send raises, and one that works. *)
Lemma send_personal_message_spec_witness :
  (1%nat ∉ WebsocketManager.active_connections
             (WebsocketManager.manager
                (snd (WebsocketManager.send_personal_message "hello" 1%nat
                        all_broken)))) ∧
  WebsocketManager.delivered_to 1%nat
    (snd (WebsocketManager.send_personal_message "hello" 1%nat burst))
  = ["hello"%string].
Proof.
  pose proof (send_personal_message_spec "hello" 1%nat all_broken) as Hbroken.
  pose proof (send_personal_message_spec "hello" 1%nat burst) as Hworks.
  cbv zeta in Hbroken, Hworks.
  destruct Hbroken as (_ & _ & _ & Hraise & _).
  destruct Hworks as (_ & _ & _ & _ & Hreturn).
  split.
  - by apply (Hraise (Exception "Exception" "Connection failed")).
  - by apply Hreturn.
Defined.

Lemma connect_spec_witness :
  WebsocketManager.connect 7%nat refusing
    = (Raise (Exception "RuntimeError" "handshake failed"), refusing) ∧
  ∃ ev,
    ev ∈ WebsocketManager.wire
           (snd (WebsocketManager.broadcast show_keys test_message
                   (snd (WebsocketManager.connect 7%nat nobody)))) ∧
    WebsocketManager.receiver ev = 7%nat.
Proof.
  pose proof (connect_spec show_keys 7%nat test_message refusing) as Hrefused.
  pose proof (connect_spec show_keys 7%nat test_message nobody) as Haccepted.
  cbv zeta in Hrefused, Haccepted.
  split.
  - by apply (proj1 Hrefused).
  - destruct (proj2 Haccepted eq_refl) as (_ & _ & _ & Hnext).
    destruct Hnext as (ev & Hev & Hrecv & _); [vm_compute; discriminate|].
    exists ev. split; [exact Hev|exact Hrecv].
Defined.

Lemma process_pass_burst_witness :
  let q' := snd (WebsocketManager.process_pass show_keys queued_burst) in
  WebsocketManager.notification_queue q' = [] ∧
  ∃ evs,
    WebsocketManager.wire (WebsocketManager.base q') = evs ∧
    WebsocketManager.receiver <$> evs = elements ({[1%nat]} ∪ {[2%nat]} : gset nat) ∧
    ∀ ev, ev ∈ evs →
      WebsocketManager.text ev = "type,change_type,timestamp,details"%string.
Proof.
  intros q'.
  destruct (process_pass_burst show_keys "item_created"
              [("item_id", WebsocketManager.JNum 1)]%string
              [("item_updated", [("item_id", WebsocketManager.JNum 1)]);
               ("item_deleted", [("item_id", WebsocketManager.JNum 1)])]%string
              queued_burst)
    as (_ & Hempty & _ & evs & Hwire & Hrecv & Htext).
  - reflexivity.
  - vm_compute. discriminate.
  - simpl. set_solver.
  - intros [|[|j]] Hj; [vm_compute; reflexivity..|simpl in Hj; lia].
  - split; [exact Hempty|]. exists evs.
    split; [exact Hwire|]. split; [exact Hrecv|exact Htext].
Defined.

Lemma queue_notification_fifo_witness :
  let idle : WebsocketManager.Queued :=
    {| WebsocketManager.notification_queue := [];
       WebsocketManager.base := nobody |} in
  WebsocketManager.process_pass show_keys idle = (Ok tt, idle) ∧
  WebsocketManager.notification_queue
    (snd (WebsocketManager.queue_notification "item_created" None queued_burst))
  = WebsocketManager.notification_queue queued_burst ++ [("item_created"%string, [])].
Proof.
  intros idle.
  pose proof (queue_notification_fifo show_keys "item_created" None idle) as Hidle.
  pose proof (queue_notification_fifo show_keys "item_created" None queued_burst)
    as Hburst.
  cbv zeta in Hidle, Hburst.
  split.
  - by apply Hidle.
  - by apply Hburst.
Defined.

(** * More of the coordinator: the periodic check, status, shutdown *)

Section CoordinatorProperties.
Import DbPersistence.
Implicit Types (w : World) (v : Service) (force : bool).

(** Unfolds the methods of the object down to their case analyses. *)
Ltac unfold_coordinator :=
  unfold _check_and_backup_if_needed, get_status, backup_database,
    restore_database, mark_data_change, should_backup_now,
    exists_, stat_st_size, board_pin_upload, mkdir, board_pin_download, copy2,
    external, logger, set_self, datetime_now, try_except, bind, gets, modify, ret;
  simpl.

(** [backup_database] never raises; it leaves the configuration of the
    object alone; it calls nothing before it has got past its tests; and
    when it returns [True], the backup was due and the last call it made
    was the upload of the database file under the pin name. *)
Lemma backup_database_run force w :
  ∃ b, fst (backup_database force w) = Ok b ∧
       configuration (self (snd (backup_database force w)))
         = configuration (self w) ∧
       last_data_change_time (self (snd (backup_database force w)))
         = last_data_change_time (self w) ∧
       env (snd (backup_database force w)) = env w ∧
       (b = false → self (snd (backup_database force w)) = self w) ∧
       (b = true →
          backup_due force w ∧
          is_Some (last_backup_time (self (snd (backup_database force w)))) ∧
          ∃ before upload,
            io (snd (backup_database force w)) = before ++ [upload] ∧
            is_upload (self w) upload) ∧
       (board (self w) = None →
          b = false ∧ io (snd (backup_database force w)) = io w).
Proof.
  destruct (first_test_run force w) as (skip & Hrun & Hdue).
  destruct (after_first_test_frame force w) as (Hs & He & Hio & _).
  remember (backup_database force w) as run eqn:Hunfold.
  unfold backup_database, bind at 1 in Hunfold. rewrite Hrun in Hunfold.
  subst run. set (w0 := after_first_test force w) in *.
  unfold is_upload, configuration.
  destruct skip; unfold_coordinator; rewrite ?Hs, ?He, ?Hio.
  { exists false. by repeat split. }
  destruct (board (self w)) as [b|] eqn:Hboard; simpl;
    rewrite ?Hs, ?He, ?Hio, ?Hboard.
  2: { exists false. by repeat split. }
  destruct (path_exists (env w) (io w) (db_path (self w))); simpl;
    rewrite ?Hs, ?He, ?Hio, ?Hboard.
  2: { exists false. by repeat split. }
  destruct (path_stat_size _ _ _) as [size|e]; simpl;
    rewrite ?Hs, ?He, ?Hio, ?Hboard.
  2: { exists false. by repeat split. }
  destruct (pin_upload _ _ _ _ _ _) as [[]|e]; simpl;
    rewrite ?Hs, ?He, ?Hio, ?Hboard.
  2: { exists false. by repeat split. }
  exists true. do 4 (split; [done|]). split; [done|]. split; [|done].
  intros _. split; [by apply Hdue|]. split; [by eexists|].
  eexists _, _. split; [done|]. by eexists.
Qed.

(** The periodic check, in terms of the two methods it calls. *)
Lemma check_and_backup_run w :
  ∃ should,
    fst (should_backup_now w) = Ok should ∧
    _check_and_backup_if_needed w =
      (Ok tt,
       if should
       then snd (backup_database false
                   (snd (logger INFO "Scheduled backup triggered due to data changes"
                           (snd (should_backup_now w)))))
       else snd (should_backup_now w)).
Proof.
  destruct (should_backup_now_needed w) as (should & Hshould & _).
  exists should. split; [done|].
  unfold _check_and_backup_if_needed, bind at 1.
  destruct (should_backup_now w) as [r w1]. simpl in *. subst r.
  destruct should; [|done].
  unfold bind at 1. unfold logger at 1, modify at 1.
  unfold bind at 1.
  match goal with
  | |- context [backup_database false ?w2] =>
      destruct (backup_database_run false w2) as (b & Hb & _);
      destruct (backup_database false w2) as [r w3] eqn:Hrun
  end.
  simpl in *. by subst r.
Qed.


(** A backup that is due, on a deployment where every call goes
    through: what [backup_database] leaves behind. *)
Lemma backup_database_uploads force w size :
  let s := self w in
  let p := db_path s in
  let w0 := after_first_test force w in
  let metadata := backup_metadata s (clock_now (wall w0)) size in
  backup_due force w →
  is_Some (board s) →
  path_exists (env w) (io w) p = true →
  path_stat_size (env w) (io w ++ [PathExists p]) p = Ok size →
  pin_upload (env w) (io w ++ [PathExists p; PathStat p]) p (pin_name s)
    metadata "Database backup" = Ok tt →
  fst (backup_database force w) = Ok true ∧
  self (snd (backup_database force w))
    = set_last_backup_time (clock_now (clock_tick (wall w0))) s ∧
  io (snd (backup_database force w))
    = io w ++ [PathExists p; PathStat p;
               PinUpload p (pin_name s) metadata "Database backup"] ∧
  wall (snd (backup_database force w)) = clock_tick (clock_tick (wall w0)).
Proof.
  intros s p w0 metadata Hdue [b Hboard] Hpresent Hstat Hupload.
  subst s p metadata w0. unfold backup_metadata in *.
  destruct (first_test_run force w) as (skip & Hrun & Hskip).
  destruct (after_first_test_frame force w) as (Hs & He & Hio & Hlog).
  assert (skip = false) as -> by (by apply Hskip).
  remember (backup_database force w) as run eqn:Hunfold.
  unfold backup_database, bind at 1 in Hunfold. rewrite Hrun in Hunfold.
  subst run.
  set (w0 := after_first_test force w) in *.
  unfold_coordinator. rewrite Hs, Hboard. simpl.
  rewrite He, Hio, Hpresent. simpl. rewrite ?He, ?Hio, Hstat. simpl.
  rewrite <- !app_assoc. simpl. rewrite Hupload. simpl.
  by rewrite Hs.
Qed.

(** The test [shutdown] makes is the spec's "unsaved changes". *)
Lemma unsaved_changes_test (s : PersistentSQLiteDB) :
  match last_data_change_time s with
  | None => false
  | Some last_change =>
      match last_backup_time s with
      | None => true
      | Some last_backup => last_backup <? last_change
      end
  end = true ↔ unsaved_changes s.
Proof.
  unfold unsaved_changes.
  destruct (last_data_change_time s) as [changed|]; [|naive_solver].
  destruct (last_backup_time s) as [backed_up|]; [|naive_solver].
  rewrite Z.ltb_lt. split.
  - intros ?. exists changed. split; [done|]. right. exists backed_up.
    split; [done|]. lia.
  - intros (changed' & [= <-] & [?|(backed_up' & [= <-] & ?)]); [done|lia].
Qed.



(** [shutdown], in terms of the forced backup it may make. *)
Lemma shutdown_run v :
  let w := coordinator v in
  let w1 := snd (logger INFO "Shutting down database persistence manager..." w) in
  let w2 := snd (logger INFO "Performing final backup before shutdown..." w1) in
  (unsaved_changes (self w) →
     shutdown v = (Ok tt, {| coordinator := snd (backup_database true w2);
                             _shutdown_requested := true |})) ∧
  (¬ unsaved_changes (self w) →
     shutdown v = (Ok tt, {| coordinator := w1; _shutdown_requested := true |})).
Proof.
  intros w w1 w2. subst w w1 w2.
  pose proof (unsaved_changes_test (self (coordinator v))) as Htest.
  unfold shutdown, bind, on_coordinator, set_shutdown_requested, logger, gets,
    modify, ret.
  cbn [fst snd coordinator _shutdown_requested self].
  destruct (match last_data_change_time _ with None => _ | Some _ => _ end);
    cbn [fst snd coordinator _shutdown_requested self].
  - split; [|by intros []; apply Htest].
    intros _.
    match goal with
    | |- context [backup_database true ?w2] =>
        destruct (backup_database_run true w2) as (b & Hb & _);
        destruct (backup_database true w2) as [r w3]
    end.
    simpl in *. by subst r.
  - split; [|done]. intros Hunsaved. by apply Htest in Hunsaved.
Qed.


(** X13. A final backup does not wait for the interval.  On a
    deployment where every call goes through, [shutdown] with unsaved
    changes uploads the database file and records the backup at the
    second time it reads, whatever the interval and the time of the last
    backup.  If the recorded change is not later than that reading, no
    unsaved changes are left, and a second [shutdown] calls nothing. *)
Theorem shutdown_final_backup v size :
  let w := coordinator v in
  let s := self w in
  let p := db_path s in
  let metadata := backup_metadata s (clock_now (wall w)) size in
  let upload := PinUpload p (pin_name s) metadata "Database backup" in
  let v' := snd (shutdown v) in
  unsaved_changes s →
  is_Some (board s) →
  path_exists (env w) (io w) p = true →
  path_stat_size (env w) (io w ++ [PathExists p]) p = Ok size →
  pin_upload (env w) (io w ++ [PathExists p; PathStat p]) p (pin_name s)
    metadata "Database backup" = Ok tt →
  last_backup_time (self (coordinator v'))
    = Some (clock_now (clock_tick (wall w))) ∧
  io (coordinator v') = io w ++ [PathExists p; PathStat p; upload] ∧
  ((∀ changed, last_data_change_time s = Some changed →
               changed ≤ clock_now (clock_tick (wall w))) →
     ¬ unsaved_changes (self (coordinator v')) ∧
     io (coordinator (snd (shutdown v'))) = io (coordinator v')).
Proof.
  intros w s p metadata upload v' Hunsaved Hboard Hpresent Hstat Hupload.
  pose proof (shutdown_run v) as Hrun. cbv zeta in Hrun. fold w in Hrun.
  set (w1 := snd (logger INFO "Shutting down database persistence manager..." w))
    in *.
  set (w2 := snd (logger INFO "Performing final backup before shutdown..." w1))
    in *.
  assert (self w2 = s ∧ wall w2 = wall w ∧ env w2 = env w ∧ io w2 = io w)
    as (Hs2 & Hwall2 & He2 & Hio2) by done.
  pose proof (backup_database_uploads true w2 size) as Hdone.
  cbv zeta in Hdone. unfold after_first_test in Hdone.
  rewrite Hs2, Hwall2, He2, Hio2 in Hdone.
  destruct Hdone as (_ & Hself & Hio & _); [by left|done..|].
  assert (coordinator v' = snd (backup_database true w2)) as Hv'.
  { subst v'. by rewrite (proj1 Hrun Hunsaved). }
  rewrite Hv', Hself, Hio. split; [done|]. split; [done|].
  intros Hlate.
  assert (¬ unsaved_changes (self (coordinator v'))) as Hsaved.
  { rewrite Hv', Hself.
    intros (changed & Hchanged & [?|(backed_up & [= <-] & ?)]); [done|].
    specialize (Hlate changed Hchanged).
    unfold clock_now, clock_tick in *. simpl in *. lia. }
  split; [by rewrite Hv', Hself in Hsaved|].
  pose proof (shutdown_run v') as Hrun'. cbv zeta in Hrun'.
  rewrite (proj2 Hrun' Hsaved). simpl. by rewrite Hv', Hio.
Qed.


(** The object the constructor leaves, from the board
    [_init_pins_board] left. *)
Lemma init_object (p : Process) (path : Path) (name : option string)
    (interval_hours : Z) :
  fst (__init__ p path name interval_hours) =
    init path
      match name with
      | None =>
          (match getenv p "CONNECT_USERNAME" with
           | None => "default_user"
           | Some u => if decide (u = ""%string) then "default_user" else u
           end ++ "/python-api-database")%string
      | Some given => given
      end
      interval_hours (fst (_init_pins_board p)).
Proof. unfold __init__. by destruct (_init_pins_board p). Qed.

(** X15. The constructor leaves an object with no change and no backup
    recorded, so with no unsaved changes and no backup needed at any
    time.  A pin name that is given is kept; one
    that is not is [<username>/python-api-database], where the username
    is [CONNECT_USERNAME], or [default_user] when that variable is unset
    or empty.  The object has no board exactly when [CONNECT_API_KEY] is
    unset or empty, or [pins.board_connect] raises; a board it has is the
    one [board_connect] returned for the key and for [CONNECT_SERVER]
    (or the default server when that variable is unset). *)
Theorem init_spec (p : Process) (path : Path) (name : option string)
    (interval_hours : Z) :
  let s := fst (__init__ p path name interval_hours) in
  let api_key := getenv p "CONNECT_API_KEY" in
  let server := default "https://connect.posit.it"%string (getenv p "CONNECT_SERVER") in
  db_path s = path ∧
  backup_interval_hours s = interval_hours ∧
  last_backup_time s = None ∧
  last_data_change_time s = None ∧
  (∀ given, name = Some given → pin_name s = given) ∧
  (name = None →
     ∃ username, pin_name s = (username ++ "/python-api-database")%string ∧
       username ≠ ""%string ∧
       (getenv p "CONNECT_USERNAME" = Some username
        ∨ (username = "default_user"%string
           ∧ (getenv p "CONNECT_USERNAME" = None
              ∨ getenv p "CONNECT_USERNAME" = Some ""%string)))) ∧
  (board s = None ↔
     api_key = None ∨ api_key = Some ""%string
     ∨ ∃ key e, api_key = Some key ∧ board_connect p server key = Raise e) ∧
  (∀ b, board s = Some b →
     ∃ key, api_key = Some key ∧ key ≠ ""%string
            ∧ board_connect p server key = Ok b) ∧
  ¬ unsaved_changes s ∧
  (∀ now, ¬ backup_needed s now).
Proof.
  intros s api_key server. subst s api_key server.
  rewrite init_object.
  cbn [init db_path pin_name backup_interval_hours last_backup_time
       last_data_change_time board].
  do 4 (split; [done|]). split; [by intros given ->|]. split.
  { intros ->. destruct (getenv p "CONNECT_USERNAME") as [u|] eqn:Hu.
    - destruct (decide (u = ""%string)) as [->|Hne].
      + exists "default_user"%string. split; [done|]. split; [done|].
        right. by split; [|right].
      + exists u. by split; [|split; [|left]].
    - exists "default_user"%string. split; [done|]. split; [done|].
      right. by split; [|left]. }
  split; [|split; [|split;
    [by intros (changed & ? & _)|by intros now (changed & ? & _)]]].
  - unfold _init_pins_board.
    destruct (decide _) as [Hkey|Hkey]; cbn [fst]; [naive_solver|].
    destruct (getenv p "CONNECT_API_KEY") as [key|]; [|naive_solver].
    cbn [default from_option id].
    destruct (board_connect p _ _) as [b|e] eqn:Hconnect; cbn [fst].
    + split; [done|]. intros [?|[?|(key' & e & ? & ?)]]; [done|naive_solver|].
      congruence.
    + split; [|done]. intros _. right. right. by exists key, e.
  - intros b. unfold _init_pins_board.
    destruct (decide _) as [Hkey|Hkey]; cbn [fst]; [done|].
    destruct (getenv p "CONNECT_API_KEY") as [key|]; [|naive_solver].
    cbn [default from_option id].
    destruct (board_connect p _ _) as [b'|e] eqn:Hconnect; cbn [fst];
      [|done].
    intros [= <-]. exists key. split; [done|]. split; [|done].
    intros ->. naive_solver.
Qed.

(** ** What holds over the whole life of the object *)

Lemma evolves_refl w : evolves w w.
Proof.
  do 4 (split; [done|]). exists []. by rewrite app_nil_r.
Qed.

Lemma evolves_trans w1 w2 w3 : evolves w1 w2 → evolves w2 w3 → evolves w1 w3.
Proof.
  intros (Hconf1 & Henv1 & Hchange1 & Hbackup1 & calls1 & Hio1 & Hup1 & Hno1)
         (Hconf2 & Henv2 & Hchange2 & Hbackup2 & calls2 & Hio2 & Hup2 & Hno2).
  assert (board (self w2) = board (self w1)) as Hboard
    by (unfold configuration in Hconf1; congruence).
  assert (∀ c, is_upload (self w2) c ↔ is_upload (self w1) c) as Hupload.
  { intros c. unfold is_upload, configuration in *.
    by replace (db_path (self w2)) with (db_path (self w1)) by congruence;
       replace (pin_name (self w2)) with (pin_name (self w1)) by congruence. }
  split; [congruence|]. split; [congruence|]. split; [tauto|]. split; [tauto|].
  exists (calls1 ++ calls2). split; [by rewrite Hio2, Hio1, app_assoc|]. split.
  - intros Hmoved.
    destruct (decide (last_backup_time (self w2) = last_backup_time (self w1)))
      as [Hsame|Hdiff].
    + destruct Hup2 as (upload & ? & ?); [congruence|].
      exists upload. split; [set_solver|]. by apply Hupload.
    + destruct (Hup1 Hdiff) as (upload & ? & ?).
      exists upload. split; [set_solver|done].
  - intros Hnone. destruct (Hno1 Hnone) as [? ?].
    destruct Hno2 as [? ?]; [congruence|].
    split; [congruence|]. by apply Forall_app.
Qed.

(** [backup_database] calls the file system only to probe it, and the
    board only to upload. *)
Lemma backup_database_evolves force w : evolves w (snd (backup_database force w)).
Proof.
  destruct (first_test_run force w) as (skip & Hrun & Hdue).
  destruct (after_first_test_frame force w) as (Hs & He & Hio & _).
  remember (backup_database force w) as run eqn:Hunfold.
  unfold backup_database, bind at 1 in Hunfold. rewrite Hrun in Hunfold.
  subst run. set (w0 := after_first_test force w) in *.
  unfold evolves, is_upload, configuration.
  destruct skip; unfold_coordinator; rewrite ?Hs, ?He, ?Hio.
  { do 4 (split; [done|]). exists []. by rewrite app_nil_r. }
  destruct (board (self w)) as [b|] eqn:Hboard; simpl;
    rewrite ?Hs, ?He, ?Hio, ?Hboard.
  2: { do 4 (split; [done|]). exists []. by rewrite app_nil_r. }
  destruct (path_exists (env w) (io w) (db_path (self w))); simpl;
    rewrite ?Hs, ?He, ?Hio, ?Hboard.
  2: { do 4 (split; [done|]). by eexists [_]. }
  destruct (path_stat_size _ _ _) as [size|e]; simpl;
    rewrite ?Hs, ?He, ?Hio, ?Hboard.
  2: { do 4 (split; [done|]). eexists [_; _]. by rewrite <- !app_assoc. }
  destruct (pin_upload _ _ _ _ _ _) as [[]|e]; simpl;
    rewrite ?Hs, ?He, ?Hio, ?Hboard.
  2: { do 4 (split; [done|]). eexists [_; _; _]. by rewrite <- !app_assoc. }
  do 3 (split; [done|]). split; [by eexists|].
  eexists [_; _; _]. rewrite <- !app_assoc. split; [done|]. split; [|done].
  intros _. eexists. split; [|by eexists].
  apply list_elem_of_further, list_elem_of_further, list_elem_of_here.
Qed.

Lemma get_status_evolves w :
  self (snd (get_status w)) = self w ∧ evolves w (snd (get_status w)).
Proof.
  unfold evolves, configuration, get_status, exists_, stat_st_size, external,
    bind, gets, ret.
  cbn [fst snd self wall env io log].
  assert (∀ w1, ∃ r, should_backup_now w1
                     = (r, snd (should_backup_now w1))) as Hpair.
  { intros w1. destruct (should_backup_now w1). by eexists. }
  destruct (path_exists (env w) (io w ++ [PathExists _]) _);
    cbn [fst snd self wall env io log].
  - destruct (path_stat_size _ _ _) as [size|e];
      cbn [fst snd self wall env io log].
    + match goal with
      | |- context [should_backup_now ?w1] =>
          destruct (should_backup_now_frame w1) as (Hs & He & Hio & _);
          destruct (should_backup_now_needed w1) as (needed & Hneeded & _);
          destruct (Hpair w1) as [r Hr]; rewrite Hr in *
      end.
      cbn [fst snd] in *. subst r. cbn [fst snd]. rewrite Hs, He, Hio.
      cbn [self env io]. split; [done|]. do 4 (split; [done|]).
      eexists [_; _; _]. rewrite <- !app_assoc. split; [done|].
      split; [done|]. intros _. split; [done|]. by repeat constructor.
    + split; [done|]. do 4 (split; [done|]).
      eexists [_; _; _]. rewrite <- !app_assoc. split; [done|].
      split; [done|]. intros _. split; [done|]. by repeat constructor.
  - match goal with
    | |- context [should_backup_now ?w1] =>
        destruct (should_backup_now_frame w1) as (Hs & He & Hio & _);
        destruct (should_backup_now_needed w1) as (needed & Hneeded & _);
        destruct (Hpair w1) as [r Hr]; rewrite Hr in *
    end.
    cbn [fst snd] in *. subst r. cbn [fst snd]. rewrite Hs, He, Hio.
    cbn [self env io]. split; [done|]. do 4 (split; [done|]).
    eexists [_; _]. rewrite <- !app_assoc. split; [done|].
    split; [done|]. intros _. split; [done|]. by repeat constructor.
Qed.

Lemma should_backup_now_evolves w : evolves w (snd (should_backup_now w)).
Proof.
  destruct (should_backup_now_frame w) as (Hs & He & Hio & _).
  unfold evolves. rewrite Hs, He, Hio. do 4 (split; [done|]).
  exists []. by rewrite app_nil_r.
Qed.

Lemma check_and_backup_evolves w :
  evolves w (snd (_check_and_backup_if_needed w)).
Proof.
  destruct (check_and_backup_run w) as (should & _ & ->). cbn [snd].
  destruct should; [|apply should_backup_now_evolves].
  eapply evolves_trans; [apply should_backup_now_evolves|].
  eapply evolves_trans; [|apply backup_database_evolves].
  do 4 (split; [done|]). exists []. by rewrite app_nil_r.
Qed.

(** Without a board [restore_database] calls nothing; with one, it does
    not touch the object. *)
Lemma restore_database_evolves w :
  self (snd (restore_database w)) = self w ∧
  evolves w (snd (restore_database w)).
Proof.
  unfold evolves, configuration. unfold_coordinator.
  destruct (board (self w)) as [b|] eqn:Hboard; simpl; rewrite ?Hboard.
  2: { split; [done|]. do 4 (split; [done|]). exists [].
       by rewrite app_nil_r. }
  destruct (path_mkdir _ _ _ _ _) as [[]|e]; simpl; rewrite ?Hboard.
  2: { split; [done|]. do 4 (split; [done|]). by eexists [_]. }
  destruct (pin_download _ _ _) as [[|downloaded others]|e]; simpl;
    rewrite ?Hboard.
  2: destruct (shutil_copy2 _ _ _ _) as [[]|e]; simpl; rewrite ?Hboard.
  all: split; [done|]; do 4 (split; [done|]);
    first [by eexists [_; _; _]; rewrite <- !app_assoc
          |by eexists [_; _]; rewrite <- !app_assoc].
Qed.

Lemma mark_data_change_evolves w : evolves w (snd (mark_data_change w)).
Proof.
  unfold evolves, configuration. unfold_coordinator.
  do 2 (split; [done|]). split; [by eexists|]. split; [done|].
  exists []. by rewrite app_nil_r.
Qed.

Lemma perform_evolves (c : call) w : evolves w (perform c w).
Proof.
  destruct c; unfold perform.
  - apply mark_data_change_evolves.
  - apply should_backup_now_evolves.
  - apply backup_database_evolves.
  - apply restore_database_evolves.
  - apply check_and_backup_evolves.
  - apply get_status_evolves.
Qed.

Lemma perform_all_evolves (cs : list call) w : evolves w (perform_all cs w).
Proof.
  revert w. induction cs as [|c cs IH]; intros w; [apply evolves_refl|].
  eapply evolves_trans; [apply perform_evolves|apply IH].
Qed.

(** X16. Whatever methods are called on the object, in whatever order
    and whatever the environment answers: the path, the pin name, the
    interval and the board stay as the constructor left them; a recorded
    change and a recorded backup are never forgotten; and
    [last_backup_time] has moved only if the database file was uploaded
    under the pin name in between. *)
Theorem perform_all_invariants (cs : list call) w :
  let w' := perform_all cs w in
  configuration (self w') = configuration (self w) ∧
  env w' = env w ∧
  (is_Some (last_data_change_time (self w)) →
     is_Some (last_data_change_time (self w'))) ∧
  (is_Some (last_backup_time (self w)) →
     is_Some (last_backup_time (self w'))) ∧
  ∃ calls, io w' = io w ++ calls ∧
    (last_backup_time (self w') ≠ last_backup_time (self w) →
       ∃ upload, upload ∈ calls ∧ is_upload (self w) upload).
Proof.
  destruct (perform_all_evolves cs w)
    as (Hconf & Henv & Hchange & Hbackup & calls & Hio & Hup & _).
  cbv zeta. do 4 (split; [done|]). by exists calls.
Qed.

(** X17. An object that has no board never gets one: after any sequence
    of calls it still has none, [last_backup_time] is what it was, the
    only calls made were probes of the file system (by [get_status]), and
    [backup_database] (forced or not) and [restore_database] return
    [False] without calling anything. *)
Theorem no_board_no_backup (cs : list call) w force :
  board (self w) = None →
  let w' := perform_all cs w in
  board (self w') = None ∧
  last_backup_time (self w') = last_backup_time (self w) ∧
  (∃ probes, io w' = io w ++ probes ∧ Forall is_probe probes) ∧
  fst (backup_database force w') = Ok false ∧
  io (snd (backup_database force w')) = io w' ∧
  fst (restore_database w') = Ok false ∧
  io (snd (restore_database w')) = io w'.
Proof.
  intros Hnone w'.
  destruct (perform_all_evolves cs w)
    as (Hconf & _ & _ & _ & probes & Hio & _ & Hno).
  destruct (Hno Hnone) as [Hsame Hprobes]. fold w' in Hconf, Hio, Hsame.
  assert (board (self w') = None) as Hnone'
    by (unfold configuration in Hconf; congruence).
  split; [done|]. split; [done|]. split; [by exists probes|].
  destruct (backup_database_run force w')
    as (b & Hb & _ & _ & _ & _ & _ & Hquiet).
  destruct (Hquiet Hnone') as [-> Hsame_io].
  split; [done|]. split; [done|].
  unfold restore_database, bind, gets, logger, modify, ret.
  cbn [fst snd]. by rewrite Hnone'.
Qed.


End CoordinatorProperties.

Lemma shutdown_final_backup_witness :
  DbPersistence.last_backup_time (DbPersistence.self rewritten)
    = Some 1000000400 ∧
  DbPersistence.last_data_change_time (DbPersistence.self rewritten)
    = Some 1000000500 ∧
  1000000500 - 1000000400 < timedelta_hours 1 ∧
  DbPersistence.io (snd (DbPersistence._check_and_backup_if_needed rewritten))
    = DbPersistence.io rewritten ∧
  DbPersistence.last_backup_time
    (DbPersistence.self
       (DbPersistence.coordinator (snd (DbPersistence.shutdown stopping))))
    = Some 1000000500 ∧
  ¬ DbPersistence.unsaved_changes
      (DbPersistence.self
         (DbPersistence.coordinator (snd (DbPersistence.shutdown stopping)))).
Proof.
  pose proof (shutdown_final_backup stopping 4096) as H. cbv zeta in H.
  destruct H as (Hbackup & _ & Hsaved); try reflexivity.
  { exists 1000000500. split; [reflexivity|]. right. exists 1000000400.
    split; [reflexivity|]. lia. }
  { by eexists. }
  split; [reflexivity|]. split; [reflexivity|].
  split; [unfold timedelta_hours; lia|]. split; [reflexivity|].
  split; [exact Hbackup|].
  apply Hsaved. intros changed [= <-]. vm_compute. discriminate.
Defined.

Lemma no_board_no_backup_witness :
  let cs := [DbPersistence.CallMarkDataChange;
             DbPersistence.CallBackupDatabase true;
             DbPersistence.CallGetStatus;
             DbPersistence.CallRestoreDatabase;
             DbPersistence.CallCheckAndBackup] in
  DbPersistence.board (DbPersistence.self no_board) = None ∧
  DbPersistence.last_backup_time
    (DbPersistence.self (DbPersistence.perform_all cs no_board)) = None ∧
  fst (DbPersistence.backup_database true (DbPersistence.perform_all cs no_board))
    = Ok false.
Proof.
  intros cs.
  pose proof (no_board_no_backup cs no_board true eq_refl) as H.
  cbv zeta in H.
  split; [reflexivity|].
  split; [exact (proj1 (proj2 H))|exact (proj1 (proj2 (proj2 (proj2 H))))].
Defined.

(** * The endpoints that write: app/routers/api.py *)

Section ApiProperties.
Import Database Api.
Context (json_dumps : WebsocketManager.Message → string).
Implicit Types (w : World) (item_id : Z).

Abbreviation notify_data_change' := (WebsocketManager.notify_data_change json_dumps).
Abbreviation after_write' := (after_write json_dumps).

Lemma bind_run {W A B} (c : M W A) (k : A → M W B) (w : W) :
  bind c k w = match c w with
               | (Ok a, w') => k a w'
               | (Raise e, w') => (Raise e, w')
               end.
Proof. reflexivity. Qed.

(** [notify_data_change] never raises: [broadcast] catches what a send
    raises. *)
Lemma notify_data_change_returns change_type details
    (m : WebsocketManager.World) :
  fst (notify_data_change' change_type details m) = Ok tt.
Proof.
  rewrite notify_data_change_unfold.
  set (m1 := WebsocketManager.after_reading m).
  set (message := WebsocketManager.data_change_message _ _ _).
  destruct (Z_lt_dec
              (clock_now (WebsocketManager.timer m1)
               - WebsocketManager.last_notification_time (WebsocketManager.manager m1))
              (WebsocketManager.min_notification_interval (WebsocketManager.manager m1)))
    as [Hrate|Hrate].
  { by rewrite broadcast_skips by (by left). }
  destruct (decide (WebsocketManager.active_connections (WebsocketManager.manager m1) = ∅))
    as [Hnone|Hsome].
  { by rewrite broadcast_skips by (by right). }
  by destruct (broadcast_sends json_dumps message m1 Hrate Hsome) as (evs & ? & _).
Qed.

(** The world the statements shared by the write endpoints leave. *)
Lemma after_write_run change_type details w :
  after_write' change_type details w =
    (Ok tt,
     {| cache :=
          {| Cache._cache :=
               delete "dashboard_items"
                 (delete "dashboard_stats" (Cache._cache (cache w)));
             Cache.wall := Cache.wall (cache w) |};
        manager := snd (notify_data_change' change_type (Some details) (manager w));
        db_manager :=
          snd (DbPersistence.backup_database false
                 (snd (DbPersistence.mark_data_change (db_manager w))));
        sqlite := sqlite w;
        statements := statements w |}).
Proof.
  unfold after_write, on_cache, on_manager, on_db_manager.
  rewrite bind_run, !invalidate_unfold. cbn [fst snd cache manager db_manager
    sqlite statements].
  rewrite bind_run, !invalidate_unfold. cbn [fst snd cache manager db_manager
    sqlite statements Cache._cache Cache.wall].
  rewrite bind_run, notify_data_change_returns. cbn [fst snd cache manager
    db_manager sqlite statements].
  rewrite bind_run. cbn [fst snd cache manager db_manager sqlite statements].
  assert (fst (DbPersistence.mark_data_change (db_manager w)) = Ok tt) as ->
    by done.
  rewrite bind_run. cbn [fst snd cache manager db_manager sqlite statements].
  destruct (backup_database_run false
              (snd (DbPersistence.mark_data_change (db_manager w))))
    as (b & -> & _).
  done.
Qed.






End ApiProperties.

(** * The dashboard and the admin endpoints: app/main.py *)

Section MainProperties.
Import Database Api Main.
Context (json_dumps : WebsocketManager.Message → string).
Context (stats_html : Z → string) (stats_error_html : exn → string).
Context (items_html : list Row → result string) (items_error_html : exn → string).
Implicit Types (w : World).

Abbreviation get_dashboard_stats' :=
  (get_dashboard_stats stats_html stats_error_html).
Abbreviation get_dashboard_items' :=
  (get_dashboard_items items_html items_error_html).

(** The world after a method of the cache. *)
Lemma on_cache_run {A} (c : M (Cache.World string) A) w :
  on_cache c w
  = (fst (c (cache w)),
     {| cache := snd (c (cache w)); manager := manager w;
        db_manager := db_manager w; sqlite := sqlite w;
        statements := statements w |}).
Proof. reflexivity. Qed.

(** X23. [get_dashboard_stats] never raises and touches neither the
    sessions nor the backup coordinator.  When the cache has the
    fragment, it is returned and SQLite is not called.  Otherwise SQLite
    is asked once: when it answers, the fragment built from the number
    of items is stored for 10 seconds and returned; when it raises, the
    fragment for the error is returned and nothing is stored, so that the
    next request asks again. *)
Theorem get_dashboard_stats_spec w :
  let looked := Cache.get "dashboard_stats" (cache w) in
  let w' := snd (get_dashboard_stats' w) in
  manager w' = manager w ∧
  db_manager w' = db_manager w ∧
  (∃ html, fst (get_dashboard_stats' w) = Ok html) ∧
  (∀ html, fst looked = Ok (Some html) →
     fst (get_dashboard_stats' w) = Ok html ∧
     cache w' = snd looked ∧
     statements w' = statements w) ∧
  (fst looked = Ok None →
     statements w' = statements w ++ [GetDashboardData] ∧
     match dashboard_data (sqlite w) (statements w) with
     | Ok data =>
         fst (get_dashboard_stats' w) = Ok (stats_html (total_items data)) ∧
         cache w' = snd (Cache.set "dashboard_stats"
                           (stats_html (total_items data)) 10 (snd looked))
     | Raise e =>
         fst (get_dashboard_stats' w) = Ok (stats_error_html e) ∧
         cache w' = snd looked
     end).
Proof.
  intros looked w'. subst w'.
  unfold get_dashboard_stats. rewrite bind_run, on_cache_run. fold looked.
  assert (∃ found, fst looked = Ok found) as [found Hfound].
  { subst looked. rewrite get_unfold.
    destruct (_ !! _) as [entry|]; [|by eexists].
    destruct (_ <? _); by eexists. }
  rewrite Hfound. destruct found as [html|].
  - cbn [fst snd ret manager db_manager cache statements].
    do 2 (split; [done|]). split; [by eexists|].
    split; [by intros html' [= <-]|done].
  - unfold try_except, get_dashboard_data, statement.
    rewrite bind_run. cbn [fst snd sqlite statements].
    destruct (dashboard_data _ _) as [data|e];
      cbn [fst snd ret manager db_manager cache statements];
      [rewrite bind_run, on_cache_run|];
      cbn [fst snd ret manager db_manager cache statements].
    + do 2 (split; [done|]). split; [by eexists|]. by split.
    + do 2 (split; [done|]). split; [by eexists|]. by split.
Qed.

(** X24. [get_dashboard_items] never raises and touches neither the
    sessions nor the backup coordinator.  When the cache has the list,
    it is returned and SQLite is not called.  Otherwise SQLite is asked
    once: when it answers and the rows can be formatted, the list is
    stored for 10 seconds and returned; when SQLite or the formatting
    raises, the fragment for the error is returned and nothing is
    stored. *)
Theorem get_dashboard_items_spec w :
  let looked := Cache.get "dashboard_items" (cache w) in
  let w' := snd (get_dashboard_items' w) in
  manager w' = manager w ∧
  db_manager w' = db_manager w ∧
  (∃ html, fst (get_dashboard_items' w) = Ok html) ∧
  (∀ html, fst looked = Ok (Some html) →
     fst (get_dashboard_items' w) = Ok html ∧
     cache w' = snd looked ∧
     statements w' = statements w) ∧
  (fst looked = Ok None →
     statements w' = statements w ++ [GetDashboardData] ∧
     match dashboard_data (sqlite w) (statements w) with
     | Ok data =>
         match items_html (recent_items data) with
         | Ok html =>
             fst (get_dashboard_items' w) = Ok html ∧
             cache w' = snd (Cache.set "dashboard_items" html 10 (snd looked))
         | Raise e =>
             fst (get_dashboard_items' w) = Ok (items_error_html e) ∧
             cache w' = snd looked
         end
     | Raise e =>
         fst (get_dashboard_items' w) = Ok (items_error_html e) ∧
         cache w' = snd looked
     end).
Proof.
  intros looked w'. subst w'.
  unfold get_dashboard_items. rewrite bind_run, on_cache_run. fold looked.
  assert (∃ found, fst looked = Ok found) as [found Hfound].
  { subst looked. rewrite get_unfold.
    destruct (_ !! _) as [entry|]; [|by eexists].
    destruct (_ <? _); by eexists. }
  rewrite Hfound. destruct found as [html|].
  - cbn [fst snd ret manager db_manager cache statements].
    do 2 (split; [done|]). split; [by eexists|].
    split; [by intros html' [= <-]|done].
  - unfold try_except, get_dashboard_data, statement.
    rewrite bind_run. cbn [fst snd sqlite statements].
    destruct (dashboard_data _ _) as [data|e];
      cbn [fst snd ret manager db_manager cache statements].
    + rewrite bind_run.
      destruct (items_html (recent_items data)) as [html|e];
        [rewrite bind_run, on_cache_run|];
        cbn [fst snd ret manager db_manager cache statements].
      * do 2 (split; [done|]). split; [by eexists|]. by split.
      * do 2 (split; [done|]). split; [by eexists|]. by split.
    + do 2 (split; [done|]). split; [by eexists|]. by split.
Qed.

(** A lookup in the cache never raises, and finds nothing under a key
    that is not there, without reading the clock. *)
Lemma get_absent key (c : Cache.World string) :
  Cache._cache c !! key = None → Cache.get key c = (Ok None, c).
Proof. intros Hnone. by rewrite get_unfold, Hnone. Qed.

(** The two endpoints when the cache gives nothing for their key, and
    [get_dashboard_stats] when it gives the fragment. *)
Lemma get_dashboard_stats_miss w :
  fst (Cache.get "dashboard_stats" (cache w)) = Ok None →
  get_dashboard_stats' w =
    match dashboard_data (sqlite w) (statements w) with
    | Ok data =>
        (Ok (stats_html (total_items data)),
         {| cache := snd (Cache.set "dashboard_stats"
                            (stats_html (total_items data)) 10
                            (snd (Cache.get "dashboard_stats" (cache w))));
            manager := manager w; db_manager := db_manager w;
            sqlite := sqlite w;
            statements := statements w ++ [GetDashboardData] |})
    | Raise e =>
        (Ok (stats_error_html e),
         {| cache := snd (Cache.get "dashboard_stats" (cache w));
            manager := manager w; db_manager := db_manager w;
            sqlite := sqlite w;
            statements := statements w ++ [GetDashboardData] |})
    end.
Proof.
  intros Hnone. unfold get_dashboard_stats.
  rewrite bind_run, on_cache_run, Hnone. cbn [fst snd].
  unfold try_except, get_dashboard_data, statement.
  rewrite bind_run. cbn [fst snd sqlite statements].
  by destruct (dashboard_data _ _).
Qed.

Lemma get_dashboard_stats_hit html w :
  fst (Cache.get "dashboard_stats" (cache w)) = Ok (Some html) →
  get_dashboard_stats' w =
    (Ok html,
     {| cache := snd (Cache.get "dashboard_stats" (cache w));
        manager := manager w; db_manager := db_manager w;
        sqlite := sqlite w; statements := statements w |}).
Proof.
  intros Hfound. unfold get_dashboard_stats.
  by rewrite bind_run, on_cache_run, Hfound.
Qed.

Lemma get_dashboard_items_miss w :
  Cache._cache (cache w) !! "dashboard_items" = None →
  get_dashboard_items' w =
    match dashboard_data (sqlite w) (statements w) with
    | Ok data =>
        match items_html (recent_items data) with
        | Ok html =>
            (Ok html,
             {| cache := snd (Cache.set "dashboard_items" html 10 (cache w));
                manager := manager w; db_manager := db_manager w;
                sqlite := sqlite w;
                statements := statements w ++ [GetDashboardData] |})
        | Raise e =>
            (Ok (items_error_html e),
             {| cache := cache w; manager := manager w;
                db_manager := db_manager w; sqlite := sqlite w;
                statements := statements w ++ [GetDashboardData] |})
        end
    | Raise e =>
        (Ok (items_error_html e),
         {| cache := cache w; manager := manager w;
            db_manager := db_manager w; sqlite := sqlite w;
            statements := statements w ++ [GetDashboardData] |})
    end.
Proof.
  intros Hnone. unfold get_dashboard_items.
  rewrite bind_run, on_cache_run, (get_absent _ _ Hnone). cbn [fst snd].
  unfold try_except, get_dashboard_data, statement.
  rewrite bind_run. cbn [fst snd sqlite statements].
  destruct (dashboard_data _ _) as [data|e]; [|done].
  rewrite bind_run. by destruct (items_html _).
Qed.

(** X25. After a write, the dashboard is read from the database again:
    once the statements shared by the write endpoints have run, the next
    [get_dashboard_stats] and the next [get_dashboard_items] each ask
    SQLite, whatever the cache held before the write and however much
    time its entries had left, and return what SQLite answers now. *)
Theorem write_refreshes_dashboard change_type details w :
  let w1 := snd (after_write json_dumps change_type details w) in
  let w2 := snd (get_dashboard_stats' w1) in
  let w3 := snd (get_dashboard_items' w2) in
  statements w2 = statements w ++ [GetDashboardData] ∧
  statements w3 = statements w ++ [GetDashboardData; GetDashboardData] ∧
  (∀ data, dashboard_data (sqlite w) (statements w) = Ok data →
     fst (get_dashboard_stats' w1) = Ok (stats_html (total_items data))) ∧
  (∀ data html,
     dashboard_data (sqlite w) (statements w ++ [GetDashboardData]) = Ok data →
     items_html (recent_items data) = Ok html →
     fst (get_dashboard_items' w2) = Ok html).
Proof.
  intros w1 w2 w3.
  assert (Cache._cache (cache w1) !! "dashboard_stats" = None
          ∧ Cache._cache (cache w1) !! "dashboard_items" = None
          ∧ sqlite w1 = sqlite w ∧ statements w1 = statements w)
    as (Hstats & Hitems & Hsqlite & Hstatements).
  { subst w1. rewrite after_write_run.
    cbn [snd cache sqlite statements Cache._cache].
    split; [by rewrite lookup_delete_ne, lookup_delete_eq|].
    split; [by rewrite lookup_delete_eq|done]. }
  assert (fst (Cache.get "dashboard_stats" (cache w1)) = Ok None) as Hmiss
    by (by rewrite (get_absent _ _ Hstats)).
  pose proof (get_dashboard_stats_miss w1 Hmiss) as Hfirst.
  rewrite (get_absent _ _ Hstats), Hsqlite, Hstatements in Hfirst.
  cbn [snd] in Hfirst.
  assert (Cache._cache (cache w2) !! "dashboard_items" = None
          ∧ sqlite w2 = sqlite w
          ∧ statements w2 = statements w ++ [GetDashboardData])
    as (Hitems2 & Hsqlite2 & Hstatements2).
  { subst w2. rewrite Hfirst.
    destruct (dashboard_data _ _) as [data|e];
      cbn [snd cache sqlite statements]; [|done].
    rewrite set_unfold. cbn [snd Cache._cache].
    by rewrite lookup_insert_ne. }
  pose proof (get_dashboard_items_miss w2 Hitems2) as Hsecond.
  rewrite Hsqlite2, Hstatements2 in Hsecond.
  split; [done|]. split.
  { subst w3. rewrite Hsecond.
    destruct (dashboard_data (sqlite w) (statements w ++ [GetDashboardData]))
      as [data|e];
      [destruct (items_html (recent_items data))|]; cbn [snd statements];
      by rewrite <- app_assoc. }
  split.
  - intros data Hdata. by rewrite Hfirst, Hdata.
  - intros data html Hdata Hhtml. by rewrite Hsecond, Hdata, Hhtml.
Qed.

(** X26. The database is asked for the statistics at most once in 10
    seconds.  After a request that missed the cache and got an answer
    from SQLite, a second request that reads the clock no later than 10
    seconds after the first one read it returns the same fragment
    without calling SQLite, whatever the table holds by then (no write
    endpoint having run in between); a second request that reads the
    clock later than that asks SQLite again. *)
Theorem dashboard_served_from_cache data w :
  let c := snd (Cache.get "dashboard_stats" (cache w)) in
  let stored_at := clock_now (Cache.wall c) in
  let asked_at := clock_now (clock_tick (clock_tick (Cache.wall c))) in
  let w1 := snd (get_dashboard_stats' w) in
  let w2 := snd (get_dashboard_stats' w1) in
  fst (Cache.get "dashboard_stats" (cache w)) = Ok None →
  dashboard_data (sqlite w) (statements w) = Ok data →
  (asked_at ≤ stored_at + timedelta_seconds 10 →
     fst (get_dashboard_stats' w1) = Ok (stats_html (total_items data)) ∧
     statements w2 = statements w ++ [GetDashboardData]) ∧
  (asked_at > stored_at + timedelta_seconds 10 →
     statements w2 = statements w ++ [GetDashboardData; GetDashboardData]).
Proof.
  intros c stored_at asked_at w1 w2 Hmiss Hdata.
  pose proof (get_dashboard_stats_miss w Hmiss) as Hfirst.
  rewrite Hdata in Hfirst. fold c in Hfirst.
  assert (cache w1 = snd (Cache.set "dashboard_stats"
                            (stats_html (total_items data)) 10 c)
          ∧ sqlite w1 = sqlite w
          ∧ statements w1 = statements w ++ [GetDashboardData])
    as (Hcache & Hsqlite & Hstatements) by (by subst w1; rewrite Hfirst).
  split.
  - intros Hsoon.
    assert (fst (Cache.get "dashboard_stats" (cache w1))
            = Ok (Some (stats_html (total_items data)))) as Hfound
      by (rewrite Hcache; by apply get_set_within).
    subst w2. rewrite (get_dashboard_stats_hit _ _ Hfound). by split.
  - intros Hlate.
    assert (fst (Cache.get "dashboard_stats" (cache w1)) = Ok None) as Hgone.
    { rewrite Hcache, set_unfold, get_unfold. cbn [snd Cache._cache Cache.wall].
      rewrite lookup_insert_eq. cbn [Cache.expires_at].
      fold stored_at asked_at. case_ltb; [done|lia]. }
    subst w2. rewrite (get_dashboard_stats_miss _ Hgone), Hsqlite, Hstatements.
    destruct (dashboard_data (sqlite w) (statements w ++ [GetDashboardData]));
      cbn [snd statements]; by rewrite <- app_assoc.
Qed.



(** X28. [test_websocket] never raises and always answers
    "notification sent", also when nothing was sent: when the
    notification is rate-limited or no session is connected, no
    [send_text] call is made.  It calls only the manager. *)
Theorem test_websocket_spec w :
  let w' := snd (test_websocket json_dumps w) in
  let details := [("message", WebsocketManager.JStr "Manual test")]%string in
  fst (test_websocket json_dumps w) = Ok "notification sent"%string ∧
  cache w' = cache w ∧ db_manager w' = db_manager w ∧
  statements w' = statements w ∧
  manager w'
    = snd (WebsocketManager.notify_data_change json_dumps "test_notification"
             (Some details) (manager w)) ∧
  (WebsocketManager.rate_limited (WebsocketManager.after_reading (manager w))
   ∨ WebsocketManager.active_connections
       (WebsocketManager.manager (manager w)) = ∅ →
     WebsocketManager.wire (manager w') = WebsocketManager.wire (manager w)).
Proof.
  intros w' details. subst w'. unfold test_websocket.
  rewrite bind_run. unfold on_manager.
  rewrite notify_data_change_returns. cbn [fst snd ret cache manager
    db_manager statements].
  do 5 (split; [done|]).
  intros Hskip. rewrite notify_data_change_unfold.
  by rewrite broadcast_skips.
Qed.

End MainProperties.

Lemma dashboard_served_from_cache_witness :
  let w := cold_start one_item [1000000; 1000000; 5000000] in
  let w1 := snd (Main.get_dashboard_stats show_total show_error w) in
  5000000 ≤ 1000000 + timedelta_seconds 10 ∧
  fst (Main.get_dashboard_stats show_total show_error w1)
    = Ok "some items"%string ∧
  Api.statements (snd (Main.get_dashboard_stats show_total show_error w1))
    = [Database.GetDashboardData].
Proof.
  intros w w1.
  pose proof (dashboard_served_from_cache show_total show_error
                {| Database.total_items := 1;
                   Database.recent_items := [first_item] |} w) as H.
  cbv zeta in H.
  destruct H as [Hsoon _]; [reflexivity..|].
  split; [unfold timedelta_seconds; lia|].
  apply Hsoon. vm_compute. discriminate.
Defined.
